(** * WeddingBot: a shallow embedding of [WeddingBot.py] and its properties

    The bot is sequential glue over three effects: two text files, one
    process-wide counter and the messages it sends.  The handlers are
    embedded as computations in a state-and-exception monad over a record
    holding exactly those pieces; the clock and the quote service are
    inputs of the handlers that consult them. *)

From Stdlib Require Import ZArith List String Ascii Lia DecimalString.
From stdpp Require Import gmap list.

Local Open Scope Z_scope.

(** ** Python text

    A Python [str] is a sequence of Unicode code points. *)

Module Text.

Definition str := list Z.

Definition LF : Z := 10.
Definition CR : Z := 13.
Definition nl : str := [LF].

(** String literals of this file are UTF-8 byte strings; [lit] decodes
    them into code points, so that the dash of [get_quote] is the one
    code point U+2014. *)
Fixpoint utf8_decode (bs : list Z) : str :=
  match bs with
  | [] => []
  | b :: r =>
      if b <? 128 then b :: utf8_decode r
      else if b <? 224 then
        match r with
        | c1 :: r1 => ((b - 192) * 64 + (c1 - 128)) :: utf8_decode r1
        | [] => []
        end
      else if b <? 240 then
        match r with
        | c1 :: c2 :: r2 =>
            ((b - 224) * 4096 + (c1 - 128) * 64 + (c2 - 128)) :: utf8_decode r2
        | _ => []
        end
      else
        match r with
        | c1 :: c2 :: c3 :: r3 =>
            ((b - 240) * 262144 + (c1 - 128) * 4096 + (c2 - 128) * 64 + (c3 - 128))
              :: utf8_decode r3
        | _ => []
        end
  end.

Definition lit (s : string) : str :=
  utf8_decode (map (fun a => Z.of_nat (nat_of_ascii a)) (list_ascii_of_string s)).

Arguments lit : simpl never.

(** [str(n)] for an [int]. *)
Definition str_of_int (n : Z) : str := lit (NilZero.string_of_int (Z.to_int n)).

(** [str.isspace] on one code point. *)
Definition isspace (c : Z) : bool :=
  ((9 <=? c) && (c <=? 13)) || ((28 <=? c) && (c <=? 32))
  || (c =? 133) || (c =? 160) || (c =? 5760)
  || ((8192 <=? c) && (c <=? 8202))
  || (c =? 8232) || (c =? 8233) || (c =? 8239) || (c =? 8287) || (c =? 12288).

Fixpoint lstrip (s : str) : str :=
  match s with
  | [] => []
  | c :: r => if isspace c then lstrip r else s
  end.

Definition rstrip (s : str) : str := rev (lstrip (rev s)).

(** [s.strip()] *)
Definition strip (s : str) : str := rstrip (lstrip s).

(** Reading in text mode with the default [newline=None]: the line
    endings CR LF and CR come back as LF. *)
Fixpoint universal_newlines (s : str) : str :=
  match s with
  | [] => []
  | c :: r =>
      if c =? CR then
        match r with
        | d :: r1 => if d =? LF then LF :: universal_newlines r1
                     else LF :: universal_newlines r
        | [] => [LF]
        end
      else c :: universal_newlines r
  end.

(** [x or y] on strings: the empty string is falsy. *)
Definition or_else (x y : str) : str :=
  match x with [] => y | _ => x end.

(** The lines of a text, the way the spec counts them: every LF ends a
    line, and a last piece without LF counts when it is not empty. *)
Fixpoint lines_from (cur : str) (s : str) : list str :=
  match s with
  | [] => match cur with [] => [] | _ => [rev cur] end
  | c :: r => if c =? LF then rev cur :: lines_from [] r
              else lines_from (c :: cur) r
  end.

Definition lines (s : str) : list str := lines_from [] s.

Definition has_newline (s : str) : bool := existsb (fun c => c =? LF) s.

(** A text that leaves no line open: empty, or ending in LF. *)
Definition closed (s : str) : bool :=
  match rev s with
  | [] => true
  | c :: _ => c =? LF
  end.

End Text.

Import Text.

(** ** The part of Python's [datetime] the bot uses *)

Module Datetime.

Record datetime := mk_datetime {
  year : Z; month : Z; day : Z;
  hour : Z; minute : Z; second : Z; microsecond : Z
}.

(** [timedelta]: [days] of either sign, [0 <= seconds < 86400] and
    [0 <= microseconds < 1000000] once normalised. *)
Record timedelta := mk_timedelta {
  days : Z; seconds : Z; microseconds : Z
}.

Definition is_leap (y : Z) : bool :=
  (y mod 4 =? 0) && (negb (y mod 100 =? 0) || (y mod 400 =? 0)).

Definition days_before_year (y : Z) : Z :=
  let p := y - 1 in p * 365 + p / 4 - p / 100 + p / 400.

(** Both tables are indexed by the month, with a placeholder at 0. *)
Definition DAYS_IN_MONTH : list Z :=
  [-1; 31; 28; 31; 30; 31; 30; 31; 31; 30; 31; 30; 31].

Definition days_in_month (y m : Z) : Z :=
  if (m =? 2) && is_leap y then 29
  else nth (Z.to_nat m) DAYS_IN_MONTH 0.

Definition DAYS_BEFORE_MONTH : list Z :=
  [-1; 0; 31; 59; 90; 120; 151; 181; 212; 243; 273; 304; 334].

Definition days_before_month (y m : Z) : Z :=
  nth (Z.to_nat m) DAYS_BEFORE_MONTH 0
  + (if (2 <? m) && is_leap y then 1 else 0).

(** [date.toordinal]: 1 is 0001-01-01. *)
Definition toordinal (t : datetime) : Z :=
  days_before_year (year t) + days_before_month (year t) (month t) + day t.

(** [date.weekday]: Monday is 0. *)
Definition weekday (t : datetime) : Z := (toordinal t + 6) mod 7.

(** The [timedelta] constructor on integers: the carries are taken by
    floor division, which is [Z.div] for a positive divisor. *)
Definition new_timedelta (d s us : Z) : timedelta :=
  let d1 := d + s / 86400 in
  let s1 := s mod 86400 + us / 1000000 in
  {| days := d1 + s1 / 86400;
     seconds := s1 mod 86400;
     microseconds := us mod 1000000 |}.

(** [a - b] on two naive datetimes. *)
Definition sub (a b : datetime) : timedelta :=
  new_timedelta
    (toordinal a - toordinal b)
    ((second a + minute a * 60 + hour a * 3600)
     - (second b + minute b * 60 + hour b * 3600))
    (microsecond a - microsecond b).

(** The fields a constructed [datetime] can have. *)
Definition valid (t : datetime) : Prop :=
  1 <= year t <= 9999 /\ 1 <= month t <= 12
  /\ 1 <= day t <= days_in_month (year t) (month t)
  /\ 0 <= hour t <= 23 /\ 0 <= minute t <= 59 /\ 0 <= second t <= 59
  /\ 0 <= microsecond t <= 999999.

(** Comparison of naive datetimes is the lexicographic one on the
    fields, from the year down to the microsecond. *)
Fixpoint lex_lt (a b : list Z) : bool :=
  match a, b with
  | x :: a', y :: b' => (x <? y) || ((x =? y) && lex_lt a' b')
  | _, _ => false
  end.

Definition fields (t : datetime) : list Z :=
  [year t; month t; day t; hour t; minute t; second t; microsecond t].

Definition lt (a b : datetime) : bool := lex_lt (fields a) (fields b).

(** Microseconds since the start of day 0 of the proleptic calendar:
    the time line on which a difference is measured. *)
Definition to_microseconds (t : datetime) : Z :=
  ((toordinal t * 86400) + hour t * 3600 + minute t * 60 + second t) * 1000000
  + microsecond t.

End Datetime.

Import Datetime.

(** ** The bot *)

(** *** What the handlers see of the outside world *)

(** A value decoded from JSON.  An object is kept as its list of
    bindings; [dict_get] finds the binding of a key. *)
#[warnings="-register-all"]
Inductive pyval :=
| PNone
| PBool (b : bool)
| PInt (n : Z)
| PFloat (shown : str)
| PStr (s : str)
| PList (items : list pyval)
| PDict (bindings : list (str * pyval)).

Inductive exn :=
| RequestException (detail : str)
| JSONDecodeError (detail : str)
| IndexError
| KeyError (key : pyval)
| TypeError
| AttributeError
| FileNotFoundError (path : str).

Inductive result (A : Type) :=
| Ok (a : A)
| Raised (e : exn).
Arguments Ok {A} a.
Arguments Raised {A} e.

(** What [requests.get] hands back: the status line, and what
    [response.json()] does when called. *)
Record response := mk_response {
  status_code : Z;
  json : result pyval
}.

(** The incoming update, as far as the handlers read it: an update that
    carries a message, with its chat, its sender and its text. *)
Record update := mk_update {
  effective_chat_id : Z;
  from_user_id : Z;
  first_name : str;
  message_text : str
}.

(** The update handed to the error handler may be absent, or carry no chat. *)
Inductive error_update :=
| NoUpdate
| UpdateWithoutChat
| UpdateInChat (chat : Z).

Record message := mk_message {
  chat_id : Z;
  text : str;
  parse_mode : option str
}.

(** One [logger.error] call: its text and the exception it reports. *)
Record log_record := mk_log_record {
  log_text : str;
  log_exn : exn
}.

(** *** The state the handlers share

    [files] is the working directory (path to content); [user_data] is the
    framework's per-user dictionary; [outbox] and [log] collect, oldest
    first, what [send_message] and [logger.error] were asked to emit. *)
Record State := mk_State {
  files : gmap (list Z) str;
  MESSAGE_COUNTER : Z;
  user_data : gmap Z (gmap (list Z) str);
  outbox : list message;
  log : list log_record
}.

Definition set_files (f : gmap (list Z) str) (st : State) : State :=
  mk_State f (MESSAGE_COUNTER st) (user_data st) (outbox st) (log st).
Definition set_counter (c : Z) (st : State) : State :=
  mk_State (files st) c (user_data st) (outbox st) (log st).
Definition set_user_data (d : gmap Z (gmap (list Z) str)) (st : State) : State :=
  mk_State (files st) (MESSAGE_COUNTER st) d (outbox st) (log st).
Definition set_outbox (o : list message) (st : State) : State :=
  mk_State (files st) (MESSAGE_COUNTER st) (user_data st) o (log st).
Definition set_log (l : list log_record) (st : State) : State :=
  mk_State (files st) (MESSAGE_COUNTER st) (user_data st) (outbox st) l.

(** *** Computations: state plus exceptions

    A raised exception keeps the effects that came before it. *)
Definition M (A : Type) : Type := State -> result A * State.

Definition ret {A} (a : A) : M A := fun st => (Ok a, st).

Definition bind {A B} (c : M A) (k : A -> M B) : M B :=
  fun st =>
    match c st with
    | (Ok a, st1) => k a st1
    | (Raised e, st1) => (Raised e, st1)
    end.

Definition raise {A} (e : exn) : M A := fun st => (Raised e, st).

Definition lift {A} (r : result A) : M A := fun st => (r, st).

(** [try: body  except Exception as e: handler] *)
Definition try_except {A} (body : M A) (handler : exn -> M A) : M A :=
  fun st =>
    match body st with
    | (Ok a, st1) => (Ok a, st1)
    | (Raised e, st1) => handler e st1
    end.

Definition gets {A} (f : State -> A) : M A := fun st => (Ok (f st), st).
Definition modify (f : State -> State) : M unit := fun st => (Ok tt, f st).

Declare Scope bot_scope.
Delimit Scope bot_scope with bot.
Notation "x <- c ;; k" := (bind c (fun x => k))
  (at level 100, c at next level, k at level 200, right associativity) : bot_scope.
Notation "c ;; k" := (bind c (fun _ => k))
  (at level 100, k at level 200, right associativity) : bot_scope.
Local Open Scope bot_scope.

(** *** Constants of the module *)

Definition SONG_FILE : str := lit "song_list.txt".
Definition ACTIVITY_FILE : str := lit "activity_list.txt".

Definition SONG_NAME : Z := 0.
Definition SONG_ARTIST : Z := 1.
Definition SUGGEST_ACTIVITY : Z := 2.
(** [ConversationHandler.END] *)
Definition END : Z := -1.

Definition WEDDING_DATE : datetime := mk_datetime 2026 12 12 0 0 0 0.

(** *** Primitive effects *)

(** [context.bot.send_message(chat_id=..., text=...)].  The platform is
    taken to accept every message: what is recorded is the request. *)
Definition send_message (chat : Z) (t : str) : M unit :=
  modify (fun st => set_outbox (outbox st ++ [mk_message chat t None]) st).

Definition send_message_with (chat : Z) (t : str) (mode : str) : M unit :=
  modify (fun st => set_outbox (outbox st ++ [mk_message chat t (Some mode)]) st).

(** [logger.error(...)] *)
Definition logger_error (t : str) (e : exn) : M unit :=
  modify (fun st => set_log (log st ++ [mk_log_record t e]) st).

(** [os.path.exists(path)] *)
Definition path_exists (path : str) : M bool :=
  gets (fun st => match files st !! path with Some _ => true | None => false end).

(** [open(path, 'r').read()]: the whole text, line endings normalised. *)
Definition read_file (path : str) : M str :=
  fun st =>
    match files st !! path with
    | Some content => (Ok (universal_newlines content), st)
    | None => (Raised (FileNotFoundError path), st)
    end.

(** [open(path, 'a').write(data)]: creates the file when it is missing
    and writes after whatever it holds.  The host's line separator is
    taken to be LF, so the text is written as it is. *)
Definition append_file (path : str) (data : str) : M unit :=
  modify (fun st =>
    set_files (<[path := default [] (files st !! path) ++ data]> (files st)) st).

(** *** Subscripting decoded JSON *)

Fixpoint dict_get (k : str) (d : list (str * pyval)) : option pyval :=
  match d with
  | [] => None
  | (k', v) :: d' => if bool_decide (k' = k) then Some v else dict_get k d'
  end.

(** [v[0]] *)
Definition getitem_0 (v : pyval) : result pyval :=
  match v with
  | PList (x :: _) => Ok x
  | PList [] => Raised IndexError
  | PStr (c :: _) => Ok (PStr [c])
  | PStr [] => Raised IndexError
  | PDict _ => Raised (KeyError (PInt 0))
  | _ => Raised TypeError
  end.

(** [v[k]] for a string key [k] *)
Definition getitem_key (v : pyval) (k : str) : result pyval :=
  match v with
  | PDict d =>
      match dict_get k d with
      | Some x => Ok x
      | None => Raised (KeyError (PStr k))
      end
  | _ => Raised TypeError
  end.

(** *** Fixed texts *)

Definition NO_SONGS : str := lit "No songs available.".
Definition NO_ACTIVITIES : str := lit "No activities available.".
Definition SEPARATOR : str := nl ++ nl ++ lit "-----" ++ nl ++ nl.

Definition QUOTE_UNAVAILABLE : str :=
  lit "Sorry, I couldn't fetch a quote at the moment.".
Definition QUOTE_WENT_WRONG : str :=
  lit "Sorry, something went wrong while fetching the quote.".

Definition COUNTDOWN_CHAT : Z := -4530637343.

Definition faq_message : str := lit "
_About the Wedding_

*What is the date and time of the wedding?*
\- December 12th, 2026 at 2 pm\.

*Where is the wedding ceremony being held?*
\- The Club at Bella Collina\.

*Where will the reception take place?*
\- Same place, The Club at Bella Collina\.

*What is the dress code for the wedding?*
\- Semi\-Formal\/Cocktail Attire\.

*Are children invited to the wedding?*
\- If needed\.

*Is there parking available at the venue?*
\- Yes\. Carpool drivers will also be available\.

*Can I bring a plus\-one to the wedding?*
\- Request a plus\-one by the RSVP date\.

*Will there be any special dietary options at the reception?*
\- Please request\.

*Can we take photos or videos during the ceremony?*
\- Yes, and please submit them to the group chat\!

*Is there a rehearsal dinner?*
\- Not an official one, but there will be a dinner with family and close friends\.

_About the Bot_

*How do I suggest a song for the wedding playlist?*
\- Type `/song` in the chat and follow the prompts to suggest a song title and artist\. The bot will add it to the playlist\.

*How do I suggest an activity for the wedding?*
\- Type `/suggestactivity` in the chat, and the bot will prompt you to suggest a fun activity\. Once submitted, the bot will show the updated list of activities\.

*How do I check how many days are left until the wedding?*
\- Type `/daysuntil` to see the current countdown to the big day\.

*Does the bot do anything automatically?*
\- The bot automatically posts countdown updates every month\. As the wedding day approaches, it will post weekly\. In the final week, it posts daily reminders\. It also sends a motivational quote every 20 messages in the chat\. Type `/quote` to see a quote on demand\.

*What do I do if the bot isn’t responding correctly?*
\- If the bot seems unresponsive, try typing the command again or asking an admin for help\.

\-\-\-

Don't see your question? Just ask in the chat and an admin member will answer shortly\.
".

(** *** The handlers *)

(** [calculate_days_until], for the reading [today] of the clock. *)
Definition hours_remaining (today : datetime) : Z :=
  seconds (sub WEDDING_DATE today) / 3600.

Definition minutes_remaining (today : datetime) : Z :=
  (seconds (sub WEDDING_DATE today) mod 3600) / 60.

Definition countdown_text (d h m : Z) : str :=
  lit "The wedding is in " ++ str_of_int d ++ lit " days, "
  ++ str_of_int h ++ lit " hours, and " ++ str_of_int m ++ lit " minutes!".

Definition calculate_days_until (today : datetime) : Z * str :=
  let delta := sub WEDDING_DATE today in
  let days_remaining := days delta in
  let seconds_remaining := seconds delta in
  let hours_remaining := seconds_remaining / 3600 in
  let minutes_remaining := (seconds_remaining mod 3600) / 60 in
  (days_remaining,
   countdown_text days_remaining hours_remaining minutes_remaining).

Definition start (u : update) : M unit :=
  send_message (effective_chat_id u) (lit "Hello! Welcome to the Wedding Planning Bot.").

Definition display_lists (u : update) : M unit :=
  song_exists <- path_exists SONG_FILE ;;
  song_list <-
    (if (song_exists : bool)
     then (content <- read_file SONG_FILE ;; ret (or_else (strip content) NO_SONGS))
     else ret NO_SONGS) ;;
  activity_exists <- path_exists ACTIVITY_FILE ;;
  activity_list <-
    (if (activity_exists : bool)
     then (content <- read_file ACTIVITY_FILE ;;
           ret (or_else (strip content) NO_ACTIVITIES))
     else ret NO_ACTIVITIES) ;;
  let combined_list :=
    lit "Song List:" ++ nl ++ song_list ++ SEPARATOR
    ++ lit "Activity List:" ++ nl ++ activity_list in
  send_message (effective_chat_id u) combined_list.

Definition song_command (u : update) : M Z :=
  send_message (effective_chat_id u)
    (first_name u ++ lit ", please enter the song title:") ;;
  ret SONG_NAME.

Definition get_song_name (u : update) : M Z :=
  modify (fun st =>
    let d := default ∅ (user_data st !! from_user_id u) in
    set_user_data
      (<[from_user_id u := <[lit "song_name" := message_text u]> d]> (user_data st))
      st) ;;
  send_message (effective_chat_id u) (lit "Now, enter the artist's name:") ;;
  ret SONG_ARTIST.

(** An f-string shows the [None] of a missing key as the text [None]. *)
Definition show_optional (o : option str) : str :=
  match o with
  | Some s => s
  | None => lit "None"
  end.

Definition song_line (song_name artist_name : str) : str :=
  song_name ++ lit " - " ++ artist_name.

Definition get_song_artist (u : update) : M Z :=
  song_name <- gets (fun st =>
    default ∅ (user_data st !! from_user_id u) !! lit "song_name") ;;
  let artist_name := message_text u in
  append_file SONG_FILE (song_line (show_optional song_name) artist_name ++ nl) ;;
  send_message (effective_chat_id u)
    (lit "Song added! Here is the updated playlist:") ;;
  song_list <- read_file SONG_FILE ;;
  send_message (effective_chat_id u) song_list ;;
  ret END.

Definition suggest_activity (u : update) : M Z :=
  send_message (effective_chat_id u)
    (first_name u ++ lit ", please suggest an activity for the wedding:") ;;
  ret SUGGEST_ACTIVITY.

Definition get_activity (u : update) : M Z :=
  let activity := message_text u in
  append_file ACTIVITY_FILE (activity ++ nl) ;;
  send_message (effective_chat_id u)
    (lit "Activity added! Here is the updated activity list:") ;;
  activity_list <- read_file ACTIVITY_FILE ;;
  send_message (effective_chat_id u) activity_list ;;
  ret END.

Definition countdown (u : update) (now : datetime) : M unit :=
  let '(_, countdown_message) := calculate_days_until now in
  send_message (effective_chat_id u) countdown_message.

Definition faq (u : update) : M unit :=
  send_message_with (effective_chat_id u) faq_message (lit "MarkdownV2").

(** [auto_post_countdown] reads the clock twice: [now] inside
    [calculate_days_until], and [now'] for the day test of the branch it
    is in. *)
Definition auto_post_countdown (now now' : datetime) : M unit :=
  let '(days_remaining, countdown_message) := calculate_days_until now in
  let chat_id := COUNTDOWN_CHAT in
  if 30 <? days_remaining then
    if day now' =? 1 then send_message chat_id countdown_message else ret tt
  else if 7 <? days_remaining then
    if weekday now' =? 0 then send_message chat_id countdown_message else ret tt
  else
    send_message chat_id countdown_message.

Definition error_handler (u : error_update) (error : exn) : M unit :=
  logger_error (lit "Exception while handling an update:") error ;;
  match u with
  | NoUpdate => raise AttributeError
  | UpdateWithoutChat => ret tt
  | UpdateInChat chat => send_message chat (lit "An error occurred!")
  end.

Section Quotes.

(** [str(v)] for the decoded values that are not text already.  How
    numbers and containers print plays no part below. *)
Variable python_str : pyval -> str.

(** [f"{v}"] *)
Definition format_value (v : pyval) : str :=
  match v with
  | PStr s => s
  | _ => python_str v
  end.

(** [f"{q} — {a}"] *)
Definition quote_text (q a : pyval) : str :=
  format_value q ++ lit " — " ++ format_value a.

(** [get_quote]; [fetched] is what [requests.get] does this time: it
    raises, or it returns a response. *)
Definition get_quote (fetched : result response) : M str :=
  try_except
    (response <- lift fetched ;;
     if status_code response =? 200 then
       quote_json <- lift (json response) ;;
       first <- lift (getitem_0 quote_json) ;;
       q <- lift (getitem_key first (lit "q")) ;;
       first' <- lift (getitem_0 quote_json) ;;
       a <- lift (getitem_key first' (lit "a")) ;;
       ret (quote_text q a)
     else
       ret QUOTE_UNAVAILABLE)
    (fun e =>
       logger_error (lit "Error fetching quote from ZenQuotes: ") e ;;
       ret QUOTE_WENT_WRONG).

Definition quote (u : update) (fetched : result response) : M unit :=
  quote <- get_quote fetched ;;
  send_message (effective_chat_id u) quote.

Definition quote_post (quote : str) : str :=
  lit "Here's a motivational quote for you:" ++ nl ++ nl ++ quote.

(** [fetched] is consulted only when the threshold is reached. *)
Definition track_messages (u : update) (fetched : result response) : M unit :=
  modify (fun st => set_counter (MESSAGE_COUNTER st + 1) st) ;;
  counter <- gets MESSAGE_COUNTER ;;
  if 20 <=? counter then
    modify (set_counter 0) ;;
    quote <- get_quote fetched ;;
    send_message (effective_chat_id u) (quote_post quote)
  else ret tt.

(** *** The system as a whole

    One [event] is one handler invocation by the framework, together
    with what the outside world answers during it. *)
Inductive event :=
| OnStart (u : update)
| OnCountdown (u : update) (now : datetime)
| OnFaq (u : update)
| OnQuote (u : update) (fetched : result response)
| OnDisplayLists (u : update)
| OnSongCommand (u : update)
| OnSongName (u : update)
| OnSongArtist (u : update)
| OnSuggestActivity (u : update)
| OnActivity (u : update)
| OnText (u : update) (fetched : result response)
| OnDailyJob (now now' : datetime)
| OnError (u : error_update) (error : exn).

Definition ignore {A} (c : M A) : M unit := c ;; ret tt.

Definition handle (ev : event) : M unit :=
  match ev with
  | OnStart u => start u
  | OnCountdown u now => countdown u now
  | OnFaq u => faq u
  | OnQuote u fetched => quote u fetched
  | OnDisplayLists u => display_lists u
  | OnSongCommand u => ignore (song_command u)
  | OnSongName u => ignore (get_song_name u)
  | OnSongArtist u => ignore (get_song_artist u)
  | OnSuggestActivity u => ignore (suggest_activity u)
  | OnActivity u => ignore (get_activity u)
  | OnText u fetched => track_messages u fetched
  | OnDailyJob now now' => auto_post_countdown now now'
  | OnError u error => error_handler u error
  end.

(** The state a handler leaves behind, whether it returned or raised. *)
Definition step (st : State) (ev : event) : State := snd (handle ev st).

Definition run (evs : list event) (st : State) : State := fold_left step evs st.

(** One pass through the song dialog by one user: the command, the
    title, the artist. *)
Definition song_dialog (u : update) (title artist : str) : list event :=
  let say t := mk_update (effective_chat_id u) (from_user_id u) (first_name u) t in
  [OnSongCommand u; OnSongName (say title); OnSongArtist (say artist)].

(** One pass through the activity dialog. *)
Definition activity_dialog (u : update) (activity : str) : list event :=
  let say t := mk_update (effective_chat_id u) (from_user_id u) (first_name u) t in
  [OnSuggestActivity u; OnActivity (say activity)].

End Quotes.

(** The process right after start-up, over whatever the directory holds. *)
Definition initial_state (fs : gmap (list Z) str) : State :=
  mk_State fs 0 ∅ [] [].

(** A file's content, a missing file counting as empty. *)
Definition content_of (path : str) (st : State) : str :=
  default [] (files st !! path).

(** *** Vocabulary of the statements *)

(** A run of plain text messages, each with what the quote service would
    answer if asked during it. *)
Definition text_messages (msgs : list (update * result response)) : list event :=
  map (fun m => OnText (fst m) (snd m)) msgs.

(** A run of complete song dialogs, one per submission. *)
Definition song_submissions (subs : list (update * (str * str))) : list event :=
  concat (map (fun s => song_dialog (fst s) (fst (snd s)) (snd (snd s))) subs).

Definition song_lines (subs : list (update * (str * str))) : list str :=
  map (fun s => song_line (fst (snd s)) (snd (snd s))) subs.

(** A run of complete activity dialogs. *)
Definition activity_submissions (subs : list (update * str)) : list event :=
  concat (map (fun s => activity_dialog (fst s) (snd s)) subs).

(** Every line followed by its LF, one after the other. *)
Definition unlines (ls : list str) : str :=
  concat (map (fun l => l ++ nl) ls).

(** The countdown post of the daily job. *)
Definition countdown_post (now : datetime) : message :=
  mk_message COUNTDOWN_CHAT (snd (calculate_days_until now)) None.

(** The reply of [display_lists] around the two list texts. *)
Definition combined (song_list activity_list : str) : str :=
  lit "Song List:" ++ nl ++ song_list ++ SEPARATOR
  ++ lit "Activity List:" ++ nl ++ activity_list.

(** What the spec says [display_lists] shows for one file: the sentinel
    when the file is missing or empty, else its content as it is. *)
Definition shown_verbatim (sentinel : str) (file : option str) : str :=
  match file with
  | None | Some [] => sentinel
  | Some content => content
  end.

(** What the code shows for one file: the text read, without the white
    space at its two ends, and the sentinel when nothing is left. *)
Definition shown_stripped (sentinel : str) (file : option str) : str :=
  match file with
  | None => sentinel
  | Some content => or_else (strip (universal_newlines content)) sentinel
  end.

(** The record that [get_quote] logs for the exception [e]. *)
Definition quote_failure (e : exn) : log_record :=
  mk_log_record (lit "Error fetching quote from ZenQuotes: ") e.

(** The spec's failures of a quote request: the request raises, the
    status is not 200, or decoding the body raises. *)
Definition request_failed (fetched : result response) : Prop :=
  match fetched with
  | Raised _ => True
  | Ok r => status_code r <> 200 \/ exists e, json r = Raised e
  end.

(** *** Sample inputs *)

Definition guest : update := mk_update 7 1 (lit "Ann") (lit "hello").

(** A rendering of non-text values, for runs that never meet one. *)
Definition plain_str (v : pyval) : str := lit "?".

Definition service_down : result response :=
  Raised (RequestException (lit "connection refused")).

Definition not_found : result response :=
  Ok (mk_response 404 (Raised (JSONDecodeError (lit "Expecting value")))).

Definition one_quote : result response :=
  Ok (mk_response 200
        (Ok (PList [PDict [(lit "q", PStr (lit "Be kind."));
                           (lit "a", PStr (lit "Anon"))]]))).

Definition two_line_title : str := lit "Hey" ++ nl ++ lit "Jude".

(** *** Vocabulary of the further properties *)

(** How many of the events are plain text messages. *)
Fixpoint count_text (evs : list event) : Z :=
  match evs with
  | [] => 0
  | OnText _ _ :: evs' => 1 + count_text evs'
  | _ :: evs' => count_text evs'
  end.

(** A quote post, to one of the given chats. *)
Definition is_quote_post (chats : list Z) (m : message) : Prop :=
  In (chat_id m) chats /\ parse_mode m = None /\ exists q, text m = quote_post q.

(** The commands that read nothing of the update but its chat, and only
    answer: the chat each one answers to. *)
Definition answers_to (ev : event) : option Z :=
  match ev with
  | OnStart u | OnCountdown u _ | OnFaq u | OnQuote u _ | OnDisplayLists u =>
      Some (effective_chat_id u)
  | _ => None
  end.

(** A message sent as plain text, or the fixed FAQ text sent as markup. *)
Definition plain_or_faq (m : message) : Prop :=
  parse_mode m = None
  \/ (text m = faq_message /\ parse_mode m = Some (lit "MarkdownV2")).

(** Texts made of white space only. *)
Definition all_space (s : str) : bool := forallb isspace s.

(** A text that starts with a character that is not white space. *)
Definition starts_clean (s : str) : bool :=
  match s with
  | c :: _ => negb (isspace c)
  | [] => false
  end.

(** A text that ends with a character that is not white space. *)
Definition ends_clean (s : str) : bool := starts_clean (rev s).

Definition has_cr (s : str) : bool := existsb (fun c => c =? CR) s.

(** The clock shows midnight sharp. *)
Definition at_midnight (t : datetime) : bool :=
  (hour t =? 0) && (minute t =? 0) && (second t =? 0) && (microsecond t =? 0).

(** The text [t] sent by the user [user] in the chat [chat]. *)
Definition text_from (chat user : Z) (t : str) : update :=
  mk_update chat user [] t.

(** * Properties *)

(** ** Quotes *)

Section QuoteFacts.

Variable python_str : pyval -> str.

(** [get_quote] always returns: either it leaves the state alone, or it
    returns the second fallback and logs one record. *)
Lemma get_quote_cases (fetched : result response) (st : State) :
  (exists q, get_quote python_str fetched st = (Ok q, st))
  \/ (exists e, get_quote python_str fetched st
                = (Ok QUOTE_WENT_WRONG, set_log (log st ++ [quote_failure e]) st)).
Proof.
  unfold get_quote, try_except, bind, lift, ret, logger_error, modify.
  destruct fetched as [r | e]; [| right; eexists; reflexivity].
  destruct (status_code r =? 200); [| left; eexists; reflexivity].
  destruct (json r) as [v | e]; [| right; eexists; reflexivity].
  destruct (getitem_0 v) as [x | e]; [| right; eexists; reflexivity].
  destruct (getitem_key x (lit "q")) as [q | e]; [| right; eexists; reflexivity].
  destruct (getitem_key x (lit "a")) as [a | e]; [| right; eexists; reflexivity].
  left; eexists; reflexivity.
Qed.

(** Whatever happens, only the log can differ afterwards. *)
Lemma get_quote_frame (fetched : result response) (st : State) :
  exists q l, get_quote python_str fetched st = (Ok q, set_log l st).
Proof.
  destruct (get_quote_cases fetched st) as [[q H] | [e H]]; rewrite H.
  - exists q, (log st). destruct st; reflexivity.
  - eauto.
Qed.

End QuoteFacts.

(** ** The message counter *)

Section CounterFacts.

Variable python_str : pyval -> str.

Lemma get_quote_value (fetched : result response) (st st' : State) :
  fst (get_quote python_str fetched st) = fst (get_quote python_str fetched st').
Proof.
  unfold get_quote, try_except, bind, lift, ret, logger_error, modify.
  destruct fetched as [r | e]; [| reflexivity].
  destruct (status_code r =? 200); [| reflexivity].
  destruct (json r) as [v | e]; [| reflexivity].
  destruct (getitem_0 v) as [x | e]; [| reflexivity].
  destruct (getitem_key x (lit "q")) as [q | e]; [| reflexivity].
  destruct (getitem_key x (lit "a")) as [a | e]; reflexivity.
Qed.

(** Below the threshold a text message only counts. *)
Lemma track_messages_below (u : update) (fetched : result response) (st : State) :
  MESSAGE_COUNTER st + 1 < 20 ->
  track_messages python_str u fetched st
  = (Ok tt, set_counter (MESSAGE_COUNTER st + 1) st).
Proof.
  intros Hlt. unfold track_messages, bind, modify, gets. cbn [fst snd MESSAGE_COUNTER set_counter].
  destruct (20 <=? MESSAGE_COUNTER st + 1) eqn:E; [lia | reflexivity].
Qed.

(** At the threshold the counter restarts and one quote goes out. *)
Lemma track_messages_at (u : update) (fetched : result response) (st : State) :
  20 <= MESSAGE_COUNTER st + 1 ->
  exists q l,
    fst (get_quote python_str fetched st) = Ok q
    /\ track_messages python_str u fetched st
       = (Ok tt,
          mk_State (files st) 0 (user_data st)
            (outbox st ++ [mk_message (effective_chat_id u) (quote_post q) None]) l).
Proof.
  intros Hge. unfold track_messages, bind, modify, gets. cbn [fst snd MESSAGE_COUNTER set_counter].
  destruct (20 <=? MESSAGE_COUNTER st + 1) eqn:E; [| lia].
  pose proof (get_quote_value fetched st
                (set_counter 0 (set_counter (MESSAGE_COUNTER st + 1) st))) as Hv.
  destruct (get_quote_frame python_str fetched
              (set_counter 0 (set_counter (MESSAGE_COUNTER st + 1) st)))
    as (q & l & Hq).
  rewrite Hq in Hv |- *. exists q, l. split; [exact Hv | reflexivity].
Qed.

Lemma run_app (evs evs' : list event) (st : State) :
  run python_str (evs ++ evs') st = run python_str evs' (run python_str evs st).
Proof. unfold run. apply fold_left_app. Qed.

Lemma text_messages_app (ms ms' : list (update * result response)) :
  text_messages (ms ++ ms') = text_messages ms ++ text_messages ms'.
Proof. unfold text_messages. apply map_app. Qed.

Lemma run_cons (ev : event) (evs : list event) (st : State) :
  run python_str (ev :: evs) st = run python_str evs (step python_str st ev).
Proof. reflexivity. Qed.

Lemma step_text_below (u : update) (fetched : result response) (st : State) :
  MESSAGE_COUNTER st + 1 < 20 ->
  step python_str st (OnText u fetched) = set_counter (MESSAGE_COUNTER st + 1) st.
Proof.
  intros Hlt. unfold step. cbn [handle].
  rewrite track_messages_below by exact Hlt. reflexivity.
Qed.

(** Messages that stay below the threshold send nothing. *)
Lemma run_text_messages_below (msgs : list (update * result response)) :
  forall st : State,
    MESSAGE_COUNTER st + Z.of_nat (length msgs) < 20 ->
    outbox (run python_str (text_messages msgs) st) = outbox st
    /\ MESSAGE_COUNTER (run python_str (text_messages msgs) st)
       = MESSAGE_COUNTER st + Z.of_nat (length msgs).
Proof.
  induction msgs as [| [u f] msgs IH]; intros st Hlt.
  - cbn [length] in *. split; [reflexivity | cbn [text_messages map run fold_left]; lia].
  - cbn [length] in Hlt.
    change (text_messages ((u, f) :: msgs))
      with (OnText u f :: text_messages msgs).
    rewrite run_cons, step_text_below by lia.
    destruct (IH (set_counter (MESSAGE_COUNTER st + 1) st)) as [Ho Hc].
    + cbn [MESSAGE_COUNTER set_counter]. lia.
    + rewrite Ho, Hc. cbn [MESSAGE_COUNTER set_counter outbox length].
      split; [reflexivity | lia].
Qed.

End CounterFacts.

(** ** What each handler does to the state *)

Ltac state_simpl :=
  cbn [fst snd files MESSAGE_COUNTER user_data outbox log
       set_files set_counter set_user_data set_outbox set_log] in *.

Ltac unfold_monad :=
  unfold ignore, send_message, send_message_with, logger_error, path_exists,
    read_file, append_file in *;
  unfold bind, ret, raise, lift, gets, modify in *.

(** Reading back a file that was just appended to cannot fail. *)
Lemma lookup_appended (path data : str) (fs : gmap (list Z) str) :
  <[path := default [] (fs !! path) ++ data]> fs !! path
  = Some (default [] (fs !! path) ++ data).
Proof. apply lookup_insert_eq. Qed.

Lemma display_lists_eq (u : update) (st : State) :
  display_lists u st
  = (Ok tt,
     set_outbox
       (outbox st
        ++ [mk_message (effective_chat_id u)
              (combined (shown_stripped NO_SONGS (files st !! SONG_FILE))
                        (shown_stripped NO_ACTIVITIES (files st !! ACTIVITY_FILE)))
              None]) st).
Proof.
  unfold display_lists, combined, shown_stripped. unfold_monad.
  destruct (files st !! SONG_FILE) as [songs |] eqn:Es; state_simpl;
    rewrite ?Es; state_simpl;
    destruct (files st !! ACTIVITY_FILE) as [acts |] eqn:Ea; state_simpl;
    rewrite ?Ea; reflexivity.
Qed.

Lemma get_song_name_eq (u : update) (st : State) :
  get_song_name u st
  = (Ok SONG_ARTIST,
     mk_State (files st) (MESSAGE_COUNTER st)
       (<[from_user_id u :=
            <[lit "song_name" := message_text u]>
              (default ∅ (user_data st !! from_user_id u))]> (user_data st))
       (outbox st
        ++ [mk_message (effective_chat_id u) (lit "Now, enter the artist's name:") None])
       (log st)).
Proof. reflexivity. Qed.

Lemma get_song_artist_eq (u : update) (st : State) :
  let song_name :=
    show_optional (default ∅ (user_data st !! from_user_id u) !! lit "song_name") in
  let written :=
    content_of SONG_FILE st ++ song_line song_name (message_text u) ++ nl in
  get_song_artist u st
  = (Ok END,
     mk_State (<[SONG_FILE := written]> (files st)) (MESSAGE_COUNTER st) (user_data st)
       (outbox st
        ++ [mk_message (effective_chat_id u)
              (lit "Song added! Here is the updated playlist:") None]
        ++ [mk_message (effective_chat_id u) (universal_newlines written) None])
       (log st)).
Proof.
  intros song_name written. unfold get_song_artist. unfold_monad. state_simpl.
  rewrite lookup_appended. unfold set_outbox, set_files. state_simpl.
  rewrite <- app_assoc. reflexivity.
Qed.

Lemma get_activity_eq (u : update) (st : State) :
  let written := content_of ACTIVITY_FILE st ++ message_text u ++ nl in
  get_activity u st
  = (Ok END,
     mk_State (<[ACTIVITY_FILE := written]> (files st)) (MESSAGE_COUNTER st)
       (user_data st)
       (outbox st
        ++ [mk_message (effective_chat_id u)
              (lit "Activity added! Here is the updated activity list:") None]
        ++ [mk_message (effective_chat_id u) (universal_newlines written) None])
       (log st)).
Proof.
  intros written. unfold get_activity. unfold_monad. state_simpl.
  rewrite lookup_appended. unfold set_outbox, set_files. state_simpl.
  rewrite <- app_assoc. reflexivity.
Qed.

(** The daily job sends its countdown or does nothing at all. *)
Lemma auto_post_countdown_eq (now now' : datetime) (st : State) :
  let d := fst (calculate_days_until now) in
  auto_post_countdown now now' st
  = (Ok tt,
     if (if 30 <? d then day now' =? 1
         else if 7 <? d then weekday now' =? 0 else true)
     then set_outbox (outbox st ++ [countdown_post now]) st
     else st).
Proof.
  unfold auto_post_countdown, countdown_post.
  destruct (calculate_days_until now) as [d m]. cbn [fst snd].
  destruct (30 <? d); [destruct (day now' =? 1); reflexivity |].
  destruct (7 <? d); [destruct (weekday now' =? 0); reflexivity |].
  reflexivity.
Qed.

(** ** What one handler invocation can change *)

Section StepFacts.

Variable python_str : pyval -> str.

Lemma quote_frame (u : update) (fetched : result response) (st : State) :
  exists o l,
    quote python_str u fetched st
    = (Ok tt, mk_State (files st) (MESSAGE_COUNTER st) (user_data st) o l).
Proof.
  unfold quote, bind.
  destruct (get_quote_frame python_str fetched st) as (q & l & ->).
  eexists _, _. reflexivity.
Qed.

Lemma error_handler_frame (u : error_update) (e : exn) (st : State) :
  exists r o l,
    error_handler u e st
    = (r, mk_State (files st) (MESSAGE_COUNTER st) (user_data st) o l).
Proof. destruct u; eexists _, _, _; reflexivity. Qed.

(** Only [track_messages] touches the counter. *)
Lemma step_counter_other (st : State) (ev : event) :
  (forall u f, ev <> OnText u f) ->
  MESSAGE_COUNTER (step python_str st ev) = MESSAGE_COUNTER st.
Proof.
  intros Hne. unfold step.
  destruct ev as [u | u now | u | u f | u | u | u | u | u | u | u f | now now' | u e];
    cbn [handle]; unfold ignore, bind.
  - reflexivity.
  - unfold countdown. destruct (calculate_days_until now). reflexivity.
  - reflexivity.
  - destruct (quote_frame u f st) as (o & l & ->). reflexivity.
  - rewrite display_lists_eq. reflexivity.
  - reflexivity.
  - reflexivity.
  - rewrite get_song_artist_eq. reflexivity.
  - reflexivity.
  - rewrite get_activity_eq. reflexivity.
  - exfalso. eapply Hne. reflexivity.
  - rewrite auto_post_countdown_eq. cbn [snd].
    match goal with |- context [if ?b then _ else _] => destruct b end; reflexivity.
  - destruct (error_handler_frame u e st) as (r & o & l & ->). reflexivity.
Qed.

Lemma step_counter_range (st : State) (ev : event) :
  0 <= MESSAGE_COUNTER st <= 19 ->
  0 <= MESSAGE_COUNTER (step python_str st ev) <= 19.
Proof.
  intros Hr.
  destruct ev as [| | | | | | | | | | u fetched | |];
    try (rewrite step_counter_other; [exact Hr | intros ? ?; discriminate]).
  unfold step. cbn [handle].
  destruct (Z_lt_le_dec (MESSAGE_COUNTER st + 1) 20) as [Hlt | Hge].
  - rewrite track_messages_below by exact Hlt. cbn [snd MESSAGE_COUNTER set_counter]. lia.
  - destruct (track_messages_at python_str u fetched st Hge) as (q & l & _ & ->).
    cbn [snd MESSAGE_COUNTER]. lia.
Qed.

(** A handler leaves the files alone, or writes one of the two lists
    anew as its old content followed by fresh text. *)
Lemma step_files (st : State) (ev : event) :
  files (step python_str st ev) = files st
  \/ exists path data,
       (path = SONG_FILE \/ path = ACTIVITY_FILE)
       /\ files (step python_str st ev)
          = <[path := content_of path st ++ data]> (files st).
Proof.
  unfold step.
  destruct ev as [u | u now | u | u f | u | u | u | u | u | u | u f | now now' | u e];
    cbn [handle]; unfold ignore, bind.
  - left; reflexivity.
  - left. unfold countdown. destruct (calculate_days_until now). reflexivity.
  - left; reflexivity.
  - left. destruct (quote_frame u f st) as (o & l & ->). reflexivity.
  - left. rewrite display_lists_eq. reflexivity.
  - left; reflexivity.
  - left; reflexivity.
  - right. rewrite get_song_artist_eq. cbn [snd files].
    eexists SONG_FILE, _. split; [left; reflexivity | reflexivity].
  - left; reflexivity.
  - right. rewrite get_activity_eq. cbn [snd files].
    eexists ACTIVITY_FILE, _. split; [right; reflexivity | reflexivity].
  - left. destruct (Z_lt_le_dec (MESSAGE_COUNTER st + 1) 20) as [Hlt | Hge].
    + rewrite track_messages_below by exact Hlt. reflexivity.
    + destruct (track_messages_at python_str u f st Hge) as (q & l & _ & ->).
      reflexivity.
  - left. rewrite auto_post_countdown_eq. cbn [snd].
    match goal with |- context [if ?b then _ else _] => destruct b end; reflexivity.
  - left. destruct (error_handler_frame u e st) as (r & o & l & ->). reflexivity.
Qed.

(** Hence every file only ever grows at its end, and stays in place. *)
Lemma step_content (path : str) (st : State) (ev : event) :
  (exists data,
     content_of path (step python_str st ev) = content_of path st ++ data)
  /\ (is_Some (files st !! path) -> is_Some (files (step python_str st ev) !! path)).
Proof.
  unfold content_of.
  destruct (step_files st ev) as [-> | (p & data & _ & ->)].
  - split; [exists []; rewrite app_nil_r; reflexivity | tauto].
  - destruct (decide (p = path)) as [-> | Hne].
    + split; [exists data | intros _]; rewrite lookup_insert_eq;
        [reflexivity | eexists; reflexivity].
    + split; [exists [] | intros Hs]; rewrite lookup_insert_ne by exact Hne;
        [rewrite app_nil_r; reflexivity | exact Hs].
Qed.

Lemma run_content (path : str) (evs : list event) :
  forall st : State,
    (exists data,
       content_of path (run python_str evs st) = content_of path st ++ data)
    /\ (is_Some (files st !! path)
        -> is_Some (files (run python_str evs st) !! path)).
Proof.
  induction evs as [| ev evs IH]; intros st.
  - split; [exists []; rewrite app_nil_r; reflexivity | tauto].
  - rewrite run_cons.
    destruct (step_content path st ev) as [[d1 H1] K1].
    destruct (IH (step python_str st ev)) as [[d2 H2] K2].
    split; [| tauto].
    exists (d1 ++ d2). rewrite H2, H1, app_assoc. reflexivity.
Qed.

Lemma run_counter_range (evs : list event) :
  forall st : State,
    0 <= MESSAGE_COUNTER st <= 19 ->
    0 <= MESSAGE_COUNTER (run python_str evs st) <= 19.
Proof.
  induction evs as [| ev evs IH]; intros st Hr; [exact Hr |].
  rewrite run_cons. apply IH, step_counter_range, Hr.
Qed.

End StepFacts.

(** ** Lines of a text *)

Lemma lines_from_cut (s : str) :
  forall (cur t : str),
    lines_from cur (s ++ LF :: t) = lines_from cur (s ++ [LF]) ++ lines_from [] t.
Proof.
  induction s as [| c s IH]; intros cur t.
  - reflexivity.
  - cbn [app lines_from]. destruct (c =? LF).
    + rewrite IH. reflexivity.
    + apply IH.
Qed.

Lemma closed_inv (s : str) :
  closed s = true -> s = [] \/ exists s', s = s' ++ [LF].
Proof.
  unfold closed. destruct (rev s) as [| c r] eqn:E; intros H.
  - left. apply (f_equal (@rev Z)) in E. rewrite rev_involutive in E. exact E.
  - right. exists (rev r). apply Z.eqb_eq in H. subst c.
    apply (f_equal (@rev Z)) in E. rewrite rev_involutive in E. exact E.
Qed.

Lemma closed_snoc (s : str) : closed (s ++ [LF]) = true.
Proof. unfold closed. rewrite rev_app_distr. reflexivity. Qed.

(** After a text that leaves no line open, the lines of what follows
    simply come next. *)
Lemma lines_app_closed (s t : str) :
  closed s = true -> lines (s ++ t) = lines s ++ lines t.
Proof.
  intros H. destruct (closed_inv s H) as [-> | [s' ->]]; [reflexivity |].
  unfold lines. rewrite <- app_assoc. apply lines_from_cut.
Qed.

Lemma lines_from_one (l : str) :
  forall cur : str,
    has_newline l = false -> lines_from cur (l ++ [LF]) = [rev cur ++ l].
Proof.
  induction l as [| c l IH]; intros cur H.
  - cbn. rewrite app_nil_r. reflexivity.
  - cbn [has_newline existsb] in H. apply orb_false_iff in H as [Hc Hl].
    cbn [app lines_from]. rewrite Hc, (IH (c :: cur) Hl).
    cbn [rev]. rewrite <- app_assoc. reflexivity.
Qed.

Lemma lines_one (l : str) : has_newline l = false -> lines (l ++ nl) = [l].
Proof. intros H. unfold lines, nl. rewrite lines_from_one by exact H. reflexivity. Qed.

Lemma unlines_cons (l : str) (ls : list str) :
  unlines (l :: ls) = (l ++ nl) ++ unlines ls.
Proof. reflexivity. Qed.

Lemma unlines_app (ls ls' : list str) :
  unlines (ls ++ ls') = unlines ls ++ unlines ls'.
Proof. unfold unlines. rewrite map_app, concat_app. reflexivity. Qed.

(** Appending whole lines that hold no LF of their own adds exactly
    those lines. *)
Lemma lines_app_unlines (ls : list str) :
  forall s : str,
    closed s = true ->
    Forall (fun l => has_newline l = false) ls ->
    lines (s ++ unlines ls) = lines s ++ ls.
Proof.
  induction ls as [| l ls IH]; intros s Hs Hls.
  - cbn. rewrite !app_nil_r. reflexivity.
  - inversion Hls as [| ? ? Hl Hls']; subst.
    rewrite unlines_cons, app_assoc, IH; [| | exact Hls'].
    + rewrite lines_app_closed by exact Hs.
      rewrite lines_one by exact Hl. rewrite <- app_assoc. reflexivity.
    + unfold nl. rewrite app_assoc. apply closed_snoc.
Qed.

(** ** The two dialogs *)

Section DialogFacts.

Variable python_str : pyval -> str.

Lemma step_song_name (u : update) (st : State) :
  step python_str st (OnSongName u) = snd (get_song_name u st).
Proof. reflexivity. Qed.

Lemma step_song_artist (u : update) (st : State) :
  step python_str st (OnSongArtist u) = snd (get_song_artist u st).
Proof.
  unfold step. cbn [handle]. unfold ignore, bind.
  rewrite get_song_artist_eq. reflexivity.
Qed.

Lemma step_activity (u : update) (st : State) :
  step python_str st (OnActivity u) = snd (get_activity u st).
Proof.
  unfold step. cbn [handle]. unfold ignore, bind.
  rewrite get_activity_eq. reflexivity.
Qed.

(** One pass through the song dialog rewrites the song file as its old
    content followed by the new entry, and no other file. *)
Lemma song_dialog_files (u : update) (title artist : str) (st : State) :
  files (run python_str (song_dialog u title artist) st)
  = <[SONG_FILE := content_of SONG_FILE st ++ song_line title artist ++ nl]>
      (files st).
Proof.
  unfold song_dialog. rewrite !run_cons. unfold run, fold_left.
  rewrite step_song_artist, get_song_artist_eq.
  rewrite step_song_name, get_song_name_eq.
  cbn [snd files user_data message_text from_user_id content_of].
  rewrite lookup_insert_eq. cbn [from_option id]. rewrite lookup_insert_eq.
  reflexivity.
Qed.

Lemma activity_dialog_files (u : update) (activity : str) (st : State) :
  files (run python_str (activity_dialog u activity) st)
  = <[ACTIVITY_FILE := content_of ACTIVITY_FILE st ++ activity ++ nl]> (files st).
Proof.
  unfold activity_dialog. rewrite !run_cons. unfold run, fold_left.
  rewrite step_activity, get_activity_eq. reflexivity.
Qed.

Lemma song_submissions_content (subs : list (update * (str * str))) :
  forall st : State,
    content_of SONG_FILE (run python_str (song_submissions subs) st)
    = content_of SONG_FILE st ++ unlines (song_lines subs).
Proof.
  induction subs as [| [u [title artist]] subs IH]; intros st.
  - cbn. rewrite app_nil_r. reflexivity.
  - change (song_submissions ((u, (title, artist)) :: subs))
      with (song_dialog u title artist ++ song_submissions subs).
    rewrite run_app, IH.
    change (song_lines ((u, (title, artist)) :: subs))
      with (song_line title artist :: song_lines subs).
    rewrite unlines_cons, app_assoc. f_equal.
    unfold content_of at 1. rewrite song_dialog_files, lookup_insert_eq.
    reflexivity.
Qed.

Lemma activity_submissions_content (subs : list (update * str)) :
  forall st : State,
    content_of ACTIVITY_FILE (run python_str (activity_submissions subs) st)
    = content_of ACTIVITY_FILE st ++ unlines (map snd subs).
Proof.
  induction subs as [| [u activity] subs IH]; intros st.
  - cbn. rewrite app_nil_r. reflexivity.
  - change (activity_submissions ((u, activity) :: subs))
      with (activity_dialog u activity ++ activity_submissions subs).
    rewrite run_app, IH.
    change (map snd ((u, activity) :: subs)) with (activity :: map snd subs).
    rewrite unlines_cons, app_assoc. f_equal.
    unfold content_of at 1. rewrite activity_dialog_files, lookup_insert_eq.
    reflexivity.
Qed.

End DialogFacts.

(** ** Time differences *)

(** The normalised triple stands for the same span, with the seconds
    and microseconds in range. *)
Lemma new_timedelta_spec (d s us : Z) :
  days (new_timedelta d s us) * 86400000000
  + seconds (new_timedelta d s us) * 1000000
  + microseconds (new_timedelta d s us)
  = d * 86400000000 + s * 1000000 + us
  /\ 0 <= seconds (new_timedelta d s us) < 86400
  /\ 0 <= microseconds (new_timedelta d s us) < 1000000.
Proof.
  unfold new_timedelta. cbn [days seconds microseconds].
  Z.div_mod_to_equations. lia.
Qed.

Lemma sub_spec (a b : datetime) :
  days (sub a b) * 86400000000 + seconds (sub a b) * 1000000
  + microseconds (sub a b)
  = to_microseconds a - to_microseconds b
  /\ 0 <= seconds (sub a b) < 86400
  /\ 0 <= microseconds (sub a b) < 1000000.
Proof.
  unfold sub.
  destruct (new_timedelta_spec
              (toordinal a - toordinal b)
              (second a + minute a * 60 + hour a * 3600
               - (second b + minute b * 60 + hour b * 3600))
              (microsecond a - microsecond b)) as (H & Hs & Hu).
  split; [| split; assumption].
  rewrite H. unfold to_microseconds. ring.
Qed.

Lemma hours_minutes_range (today : datetime) :
  0 <= hours_remaining today <= 23 /\ 0 <= minutes_remaining today <= 59.
Proof.
  unfold hours_remaining, minutes_remaining.
  destruct (sub_spec WEDDING_DATE today) as (_ & Hs & _).
  set (s := seconds (sub WEDDING_DATE today)) in *. clearbody s.
  Z.div_mod_to_equations. lia.
Qed.

Lemma days_before_month_nonneg (y m : Z) :
  1 <= m <= 12 -> 0 <= days_before_month y m.
Proof.
  intros Hm. unfold days_before_month.
  assert (0 <= nth (Z.to_nat m) DAYS_BEFORE_MONTH 0) as Hn.
  { assert (m = 1 \/ m = 2 \/ m = 3 \/ m = 4 \/ m = 5 \/ m = 6 \/ m = 7
            \/ m = 8 \/ m = 9 \/ m = 10 \/ m = 11 \/ m = 12) as Hc by lia.
    repeat (destruct Hc as [-> | Hc]); try subst m; vm_compute; discriminate. }
  destruct ((2 <? m) && is_leap y); lia.
Qed.

(** On constructed datetimes, later in the field order is later on the
    time line; here for the wedding date against any later moment. *)
Lemma after_wedding_later (now : datetime) :
  valid now -> lt WEDDING_DATE now = true ->
  to_microseconds WEDDING_DATE < to_microseconds now.
Proof.
  intros (Hy & Hm & Hd & Hh & Hmi & Hs & Hus) Hlt.
  pose proof (days_before_month_nonneg (year now) (month now) Hm) as Hdbm.
  unfold lt, fields, WEDDING_DATE in Hlt. cbn [lex_lt year month day hour minute second microsecond] in Hlt.
  repeat first [ rewrite orb_true_iff in Hlt | rewrite andb_true_iff in Hlt
               | rewrite Z.ltb_lt in Hlt | rewrite Z.eqb_eq in Hlt ].
  change (to_microseconds WEDDING_DATE) with 63932716800000000.
  unfold to_microseconds, toordinal.
  destruct Hlt as [Hlt | [Ey Hlt]].
  - unfold days_before_year. Z.div_mod_to_equations. nia.
  - rewrite <- Ey in *. destruct Hlt as [Hlt | [Em Hlt]]; [lia |].
    rewrite <- Em in *.
    change (days_before_year 2026) with 739616.
    change (days_before_month 2026 12) with 334.
    lia.
Qed.

(** Past the wedding the whole-day part of the difference is negative. *)
Lemma days_negative_after_wedding (now : datetime) :
  valid now -> lt WEDDING_DATE now = true -> days (sub WEDDING_DATE now) < 0.
Proof.
  intros Hv Hlt. pose proof (after_wedding_later now Hv Hlt) as Hl.
  destruct (sub_spec WEDDING_DATE now) as (H & Hs & Hu). lia.
Qed.

(** ** Checks on concrete inputs *)

Example weekday_of_the_wedding : weekday WEDDING_DATE = 5.
Proof. reflexivity. Qed.

Example countdown_one_microsecond_past_midnight :
  calculate_days_until (mk_datetime 2026 12 2 0 0 0 1)
  = (9, lit "The wedding is in 9 days, 23 hours, and 59 minutes!").
Proof. vm_compute. reflexivity. Qed.

Example countdown_one_second_late :
  calculate_days_until (mk_datetime 2026 12 12 0 0 1 0)
  = (-1, lit "The wedding is in -1 days, 23 hours, and 59 minutes!").
Proof. vm_compute. reflexivity. Qed.

Example blank_file_shows_sentinel :
  shown_stripped NO_SONGS (Some (lit "  " ++ [CR; LF] ++ nl)) = NO_SONGS.
Proof. vm_compute. reflexivity. Qed.

Example quote_from_empty_list :
  get_quote plain_str (Ok (mk_response 200 (Ok (PList [])))) (initial_state ∅)
  = (Ok QUOTE_WENT_WRONG, set_log [quote_failure IndexError] (initial_state ∅)).
Proof. reflexivity. Qed.

Example quote_without_author :
  get_quote plain_str
    (Ok (mk_response 200 (Ok (PList [PDict [(lit "q", PStr (lit "Be kind."))]]))))
    (initial_state ∅)
  = (Ok QUOTE_WENT_WRONG,
     set_log [quote_failure (KeyError (PStr (lit "a")))] (initial_state ∅)).
Proof. vm_compute. reflexivity. Qed.

Example artist_without_title :
  content_of SONG_FILE
    (run plain_str [OnSongArtist guest] (initial_state ∅))
  = lit "None - hello" ++ nl.
Proof. vm_compute. reflexivity. Qed.

(** * The claims *)

(** ** The message counter *)

(** C1.  From a counter of 0, nineteen text messages in a row send
    nothing and leave the counter at 19; the twentieth sends exactly one
    message, the quote post for its chat, and puts the counter back to 0. *)
Theorem twentieth_message_posts_quote
    (python_str : pyval -> str) (st : State)
    (msgs : list (update * result response)) (last : update * result response) :
  MESSAGE_COUNTER st = 0 ->
  length msgs = 19%nat ->
  outbox (run python_str (text_messages msgs) st) = outbox st
  /\ MESSAGE_COUNTER (run python_str (text_messages msgs) st) = 19
  /\ MESSAGE_COUNTER (run python_str (text_messages (msgs ++ [last])) st) = 0
  /\ exists q,
       fst (get_quote python_str (snd last) st) = Ok q
       /\ outbox (run python_str (text_messages (msgs ++ [last])) st)
          = outbox st
            ++ [mk_message (effective_chat_id (fst last)) (quote_post q) None].
Proof.
  intros H0 Hlen.
  destruct (run_text_messages_below python_str msgs st) as [Ho Hc].
  { rewrite H0, Hlen. lia. }
  rewrite H0, Hlen in Hc. change (0 + Z.of_nat 19) with 19 in Hc.
  split; [exact Ho |]. split; [exact Hc |].
  rewrite text_messages_app, run_app.
  destruct last as [u f].
  change (text_messages [(u, f)]) with [OnText u f].
  rewrite run_cons. unfold run at 1 3, fold_left. unfold step. cbn [handle fst snd].
  destruct (track_messages_at python_str u f
              (run python_str (text_messages msgs) st)) as (q & l & Hq & ->).
  { rewrite Hc. lia. }
  cbn [snd MESSAGE_COUNTER outbox]. split; [reflexivity |].
  exists q. split.
  - rewrite <- Hq. apply get_quote_value.
  - rewrite Ho. reflexivity.
Qed.

Lemma twentieth_message_posts_quote_witness :
  let st := initial_state ∅ in
  let msgs := repeat (guest, service_down) 19 in
  outbox (run plain_str (text_messages msgs) st) = []
  /\ MESSAGE_COUNTER (run plain_str (text_messages msgs) st) = 19
  /\ MESSAGE_COUNTER (run plain_str (text_messages (msgs ++ [(guest, one_quote)])) st) = 0
  /\ exists q,
       fst (get_quote plain_str one_quote st) = Ok q
       /\ outbox (run plain_str (text_messages (msgs ++ [(guest, one_quote)])) st)
          = [mk_message 7 (quote_post q) None].
Proof.
  exact (twentieth_message_posts_quote plain_str (initial_state ∅)
           (repeat (guest, service_down) 19) (guest, one_quote)
           eq_refl eq_refl).
Defined.

(** C10.  The counter starts at 0 and only [track_messages] writes it:
    whatever the handlers are invoked with, and in whatever order, it lies
    between 0 and 19 after each of them. *)
Theorem counter_between_0_and_19
    (python_str : pyval -> str) (fs : gmap (list Z) str) (evs : list event) :
  0 <= MESSAGE_COUNTER (run python_str evs (initial_state fs)) <= 19.
Proof.
  apply run_counter_range. cbn [MESSAGE_COUNTER initial_state]. lia.
Qed.

(** ** The two list files *)

Lemma has_newline_app (s t : str) :
  has_newline (s ++ t) = has_newline s || has_newline t.
Proof. apply existsb_app. Qed.

Lemma song_line_no_newline (title artist : str) :
  has_newline title = false -> has_newline artist = false ->
  has_newline (song_line title artist) = false.
Proof.
  intros Ht Ha. unfold song_line. rewrite !has_newline_app, Ht, Ha. reflexivity.
Qed.

(** C2, as the spec words it, fails: a title of two lines makes the
    file grow by two lines, neither of which is the entry. *)
Lemma song_with_newline_adds_two_lines :
  ~ (forall (python_str : pyval -> str) (st : State)
            (subs : list (update * (str * str))),
       closed (content_of SONG_FILE st) = true ->
       lines (content_of SONG_FILE (run python_str (song_submissions subs) st))
       = lines (content_of SONG_FILE st) ++ song_lines subs).
Proof.
  intros H.
  specialize (H plain_str (initial_state ∅)
                [(guest, (two_line_title, lit "Beatles"))] eq_refl).
  vm_compute in H. discriminate H.
Qed.

(** C2, amended.  Whatever the titles and artists, the song file after a
    run of song dialogs is its prior content followed by the text
    [<title> - <artist>] and a line feed for each submission, in order.
    When the file left no line open before and no title or artist holds
    a line feed, that is exactly one more line per submission, after the
    prior lines. *)
Theorem song_submissions_append_entries
    (python_str : pyval -> str) (st : State)
    (subs : list (update * (str * str))) :
  content_of SONG_FILE (run python_str (song_submissions subs) st)
  = content_of SONG_FILE st ++ unlines (song_lines subs)
  /\ (closed (content_of SONG_FILE st) = true ->
      Forall (fun s => has_newline (fst (snd s)) = false
                       /\ has_newline (snd (snd s)) = false) subs ->
      lines (content_of SONG_FILE (run python_str (song_submissions subs) st))
      = lines (content_of SONG_FILE st) ++ song_lines subs).
Proof.
  split; [apply song_submissions_content |].
  intros Hc Hs. rewrite song_submissions_content.
  apply lines_app_unlines; [exact Hc |].
  unfold song_lines. apply Forall_map.
  eapply Forall_impl; [exact Hs |].
  intros s [Ht Ha]. apply song_line_no_newline; assumption.
Qed.

Lemma song_submissions_append_entries_witness :
  let subs := [(guest, (lit "Hey Jude", lit "Beatles"));
               (guest, (lit "Yesterday", lit "Beatles"))] in
  lines (content_of SONG_FILE
           (run plain_str (song_submissions subs) (initial_state ∅)))
  = [lit "Hey Jude - Beatles"; lit "Yesterday - Beatles"].
Proof.
  refine (proj2 (song_submissions_append_entries plain_str (initial_state ∅)
                   [(guest, (lit "Hey Jude", lit "Beatles"));
                    (guest, (lit "Yesterday", lit "Beatles"))]) eq_refl _).
  repeat constructor.
Defined.

(** C3, as the spec words it, fails the same way: an activity of two
    lines makes the file grow by two lines. *)
Lemma activity_with_newline_adds_two_lines :
  ~ (forall (python_str : pyval -> str) (st : State) (subs : list (update * str)),
       closed (content_of ACTIVITY_FILE st) = true ->
       lines (content_of ACTIVITY_FILE
                (run python_str (activity_submissions subs) st))
       = lines (content_of ACTIVITY_FILE st) ++ map snd subs).
Proof.
  intros H.
  specialize (H plain_str (initial_state ∅) [(guest, two_line_title)] eq_refl).
  vm_compute in H. discriminate H.
Qed.

(** C3, amended.  The activity file after a run of activity dialogs is
    its prior content followed by each submitted text and a line feed,
    in order.  When the file left no line open before and no text holds
    a line feed, that is exactly one more line per submission, the text
    as it was sent. *)
Theorem activity_submissions_append_entries
    (python_str : pyval -> str) (st : State) (subs : list (update * str)) :
  content_of ACTIVITY_FILE (run python_str (activity_submissions subs) st)
  = content_of ACTIVITY_FILE st ++ unlines (map snd subs)
  /\ (closed (content_of ACTIVITY_FILE st) = true ->
      Forall (fun s => has_newline (snd s) = false) subs ->
      lines (content_of ACTIVITY_FILE
               (run python_str (activity_submissions subs) st))
      = lines (content_of ACTIVITY_FILE st) ++ map snd subs).
Proof.
  split; [apply activity_submissions_content |].
  intros Hc Hs. rewrite activity_submissions_content.
  apply lines_app_unlines; [exact Hc |].
  apply Forall_map. exact Hs.
Qed.

Lemma activity_submissions_append_entries_witness :
  let subs := [(guest, lit "Limbo"); (guest, lit "Karaoke")] in
  lines (content_of ACTIVITY_FILE
           (run plain_str (activity_submissions subs) (initial_state ∅)))
  = [lit "Limbo"; lit "Karaoke"].
Proof.
  refine (proj2 (activity_submissions_append_entries plain_str (initial_state ∅)
                   [(guest, lit "Limbo"); (guest, lit "Karaoke")]) eq_refl _).
  repeat constructor.
Defined.

(** C8.  Across any sequence of handler invocations, every file (the two
    lists among them) keeps what it held as a prefix of what it holds
    after, and a file that exists still exists: nothing written is changed
    or removed.  In terms of lines: a file that left no line open keeps
    all its lines, in place, before whatever lines were added. *)
Theorem files_are_append_only
    (python_str : pyval -> str) (evs : list event) (st : State) (path : str) :
  exists data,
    content_of path (run python_str evs st) = content_of path st ++ data
    /\ (is_Some (files st !! path)
        -> is_Some (files (run python_str evs st) !! path))
    /\ (closed (content_of path st) = true
        -> lines (content_of path (run python_str evs st))
           = lines (content_of path st) ++ lines data).
Proof.
  destruct (run_content python_str path evs st) as [[data H] K].
  exists data. split; [exact H |]. split; [exact K |].
  intros Hc. rewrite H. apply lines_app_closed, Hc.
Qed.

Lemma files_are_append_only_witness :
  let st := initial_state {[SONG_FILE := lit "Hey Jude - Beatles" ++ nl]} in
  let evs := song_dialog guest (lit "Yesterday") (lit "Beatles")
             ++ [OnDisplayLists guest; OnText guest service_down]
             ++ activity_dialog guest (lit "Limbo") in
  exists data,
    is_Some (files (run plain_str evs st) !! SONG_FILE)
    /\ lines (content_of SONG_FILE (run plain_str evs st))
       = [lit "Hey Jude - Beatles"] ++ lines data.
Proof.
  destruct (files_are_append_only plain_str
              (song_dialog guest (lit "Yesterday") (lit "Beatles")
               ++ [OnDisplayLists guest; OnText guest service_down]
               ++ activity_dialog guest (lit "Limbo"))
              (initial_state {[SONG_FILE := lit "Hey Jude - Beatles" ++ nl]})
              SONG_FILE) as (data & _ & Hkept & Hlines).
  exists data. split.
  - apply Hkept. vm_compute. eexists. reflexivity.
  - apply Hlines. vm_compute. reflexivity.
Defined.

(** ** Showing the lists *)

(** C4, as the spec words it, fails: the activity file that one
    submission leaves behind is shown without its final line feed, not
    as it is. *)
Lemma display_lists_not_verbatim :
  ~ (forall (u : update) (st : State),
       display_lists u st
       = (Ok tt,
          set_outbox
            (outbox st
             ++ [mk_message (effective_chat_id u)
                   (combined
                      (shown_verbatim NO_SONGS (files st !! SONG_FILE))
                      (shown_verbatim NO_ACTIVITIES (files st !! ACTIVITY_FILE)))
                   None]) st)).
Proof.
  intros H.
  specialize (H guest (run plain_str (activity_dialog guest (lit "Limbo"))
                         (initial_state ∅))).
  vm_compute in H. discriminate H.
Qed.

(** C4, amended.  [display_lists] sends one message: the two list texts
    under their headings, joined by the fixed separator.  For each file
    the list text is the file's text as read, without the white space at
    its two ends, and the fixed sentinel when the file is missing or
    nothing is left; so with both files missing or empty the message is
    the two sentinels joined by the separator. *)
Theorem display_lists_shows_stripped (u : update) (st : State) :
  display_lists u st
  = (Ok tt,
     set_outbox
       (outbox st
        ++ [mk_message (effective_chat_id u)
              (combined (shown_stripped NO_SONGS (files st !! SONG_FILE))
                        (shown_stripped NO_ACTIVITIES (files st !! ACTIVITY_FILE)))
              None]) st)
  /\ (content_of SONG_FILE st = [] ->
      content_of ACTIVITY_FILE st = [] ->
      display_lists u st
      = (Ok tt,
         set_outbox
           (outbox st
            ++ [mk_message (effective_chat_id u)
                  (combined NO_SONGS NO_ACTIVITIES) None]) st)).
Proof.
  split; [apply display_lists_eq |].
  unfold content_of. intros Hs Ha. rewrite display_lists_eq.
  destruct (files st !! SONG_FILE) as [s |];
    destruct (files st !! ACTIVITY_FILE) as [a |];
    cbn [from_option id] in Hs, Ha; subst; reflexivity.
Qed.

Lemma display_lists_shows_stripped_witness :
  let st := initial_state {[SONG_FILE := []]} in
  display_lists guest st
  = (Ok tt,
     set_outbox
       (outbox st
        ++ [mk_message 7 (combined NO_SONGS NO_ACTIVITIES) None]) st).
Proof.
  exact (proj2 (display_lists_shows_stripped guest
                  (initial_state {[SONG_FILE := []]})) eq_refl eq_refl).
Defined.

(** ** The countdown *)

(** C6.  For every reading [now] of the clock, [calculate_days_until]
    reports the whole days of the difference to 2026-12-12, and the
    hours and minutes taken by integer division from the seconds left
    over; together they are the difference rounded down to whole
    minutes.  At 2026-12-02 00:00 that is 10 days, 0 hours, and 0
    minutes. *)
Theorem countdown_by_truncation (now : datetime) :
  let delta := sub WEDDING_DATE now in
  let remaining := to_microseconds WEDDING_DATE - to_microseconds now in
  let d := days delta in
  let h := seconds delta / 3600 in
  let m := (seconds delta mod 3600) / 60 in
  calculate_days_until now = (d, countdown_text d h m)
  /\ d = remaining / 86400000000
  /\ (d * 24 + h) * 60 + m = remaining / 60000000
  /\ 0 <= h <= 23 /\ 0 <= m <= 59
  /\ calculate_days_until (mk_datetime 2026 12 2 0 0 0 0)
     = (10, lit "The wedding is in 10 days, 0 hours, and 0 minutes!").
Proof.
  intros delta remaining d h m.
  split; [reflexivity |].
  destruct (sub_spec WEDDING_DATE now) as (H & Hs & Hu).
  fold delta in H, Hs, Hu. fold d in H. fold remaining in H.
  subst h m. set (s := seconds delta) in *. set (us := microseconds delta) in *.
  clearbody remaining d s us.
  split; [Z.div_mod_to_equations; lia |].
  split; [Z.div_mod_to_equations; lia |].
  split; [Z.div_mod_to_equations; lia |].
  split; [Z.div_mod_to_equations; lia |].
  vm_compute. reflexivity.
Qed.

Lemma posted_iff (b : bool) (m : message) (st : State) :
  let st' := if b then set_outbox (outbox st ++ [m]) st else st in
  (outbox st' = outbox st ++ [m] <-> b = true)
  /\ (outbox st' = outbox st ++ [m] \/ st' = st).
Proof.
  destruct b; cbn [outbox set_outbox].
  - split; [tauto | left; reflexivity].
  - split; [| right; reflexivity].
    split; [| discriminate].
    intros E. apply (f_equal (@length message)) in E.
    rewrite length_app in E. cbn [length] in E. lia.
Qed.

(** C5, as the spec words it, fails.  The spec's remaining time is the
    difference between the wedding date and now; the code compares its
    whole days only.  On Friday 2026-12-04 at 09:00 there are 7 days and
    15 hours left, more than 7 days and at most 30, and the job posts
    although the day is no Monday. *)
Lemma friday_with_seven_days_left_posts :
  ~ (forall (now now' : datetime) (st : State),
       7 * 86400000000 < to_microseconds WEDDING_DATE - to_microseconds now
                         <= 30 * 86400000000 ->
       (outbox (snd (auto_post_countdown now now' st))
        = outbox st ++ [countdown_post now]
        <-> weekday now' = 0)).
Proof.
  intros H.
  specialize (H (mk_datetime 2026 12 4 9 0 0 0) (mk_datetime 2026 12 4 9 0 0 0)
                (initial_state ∅)).
  destruct H as [Hposted _].
  - split; vm_compute; [reflexivity | discriminate].
  - assert (weekday (mk_datetime 2026 12 4 9 0 0 0) = 0) as Hmonday
      by (apply Hposted; reflexivity).
    vm_compute in Hmonday. discriminate Hmonday.
Qed.

(** C5, amended.  The daily job posts or does nothing, by the whole days
    remaining, that is the remaining time rounded down to days.  With
    more than 30 whole days remaining it posts exactly when the day of
    the month is 1; with more than 7 and at most 30, exactly when the
    day is a Monday; with 7 or fewer it posts.  A post is one message,
    the countdown text, to the one chat -4530637343. *)
Theorem countdown_posting_policy (now now' : datetime) (st : State) :
  let d := fst (calculate_days_until now) in
  let st' := snd (auto_post_countdown now now' st) in
  let posted := outbox st' = outbox st ++ [countdown_post now] in
  fst (auto_post_countdown now now' st) = Ok tt
  /\ (posted \/ st' = st)
  /\ (30 < d -> (posted <-> day now' = 1))
  /\ (7 < d <= 30 -> (posted <-> weekday now' = 0))
  /\ (d <= 7 -> posted)
  /\ chat_id (countdown_post now) = -4530637343.
Proof.
  intros d st' posted. subst st' posted.
  rewrite auto_post_countdown_eq. fold d. cbn [fst snd].
  match goal with
  | |- context [if ?c then set_outbox _ _ else _] =>
      destruct (posted_iff c (countdown_post now) st) as [Hiff Hor]
  end.
  cbv zeta in Hiff, Hor.
  split; [reflexivity |]. split; [exact Hor |].
  split; [| split; [| split; [| reflexivity]]].
  - intros H30. rewrite Hiff.
    destruct (Z.ltb_spec 30 d); [apply Z.eqb_eq | lia].
  - intros [H7 H30]. rewrite Hiff.
    destruct (Z.ltb_spec 30 d); [lia |].
    destruct (Z.ltb_spec 7 d); [apply Z.eqb_eq | lia].
  - intros H7. apply Hiff.
    destruct (Z.ltb_spec 30 d); [lia |].
    destruct (Z.ltb_spec 7 d); [lia | reflexivity].
Qed.

Lemma countdown_posting_policy_witness :
  let first_of_november := mk_datetime 2026 11 1 9 0 0 0 in
  let a_monday := mk_datetime 2026 11 16 9 0 0 0 in
  let last_week := mk_datetime 2026 12 8 9 0 0 0 in
  let st := initial_state ∅ in
  (30 < fst (calculate_days_until first_of_november)
   /\ outbox (snd (auto_post_countdown first_of_november first_of_november st))
      = outbox st ++ [countdown_post first_of_november])
  /\ (7 < fst (calculate_days_until a_monday) <= 30
      /\ outbox (snd (auto_post_countdown a_monday a_monday st))
         = outbox st ++ [countdown_post a_monday])
  /\ (fst (calculate_days_until last_week) <= 7
      /\ outbox (snd (auto_post_countdown last_week last_week st))
         = outbox st ++ [countdown_post last_week]).
Proof.
  pose proof (countdown_posting_policy (mk_datetime 2026 11 1 9 0 0 0)
                (mk_datetime 2026 11 1 9 0 0 0) (initial_state ∅))
    as (_ & _ & Hmonthly & _).
  pose proof (countdown_posting_policy (mk_datetime 2026 11 16 9 0 0 0)
                (mk_datetime 2026 11 16 9 0 0 0) (initial_state ∅))
    as (_ & _ & _ & Hweekly & _).
  pose proof (countdown_posting_policy (mk_datetime 2026 12 8 9 0 0 0)
                (mk_datetime 2026 12 8 9 0 0 0) (initial_state ∅))
    as (_ & _ & _ & _ & Hdaily & _).
  split; [| split].
  - split; [reflexivity |]. apply Hmonthly; reflexivity.
  - split; [split; vm_compute; [reflexivity | discriminate] |].
    apply Hweekly; [split; vm_compute; [reflexivity | discriminate] | reflexivity].
  - split; [vm_compute; discriminate |]. apply Hdaily. vm_compute. discriminate.
Defined.

(** C9.  At any moment after the wedding date the whole days remaining
    are negative, so the daily job posts whatever the day is; the hours
    and minutes of the text it posts lie in 0..23 and 0..59. *)
Theorem posts_daily_after_wedding (now now' : datetime) (st : State) :
  valid now ->
  lt WEDDING_DATE now = true ->
  fst (calculate_days_until now) < 0
  /\ outbox (snd (auto_post_countdown now now' st))
     = outbox st ++ [countdown_post now]
  /\ text (countdown_post now)
     = countdown_text (fst (calculate_days_until now))
         (hours_remaining now) (minutes_remaining now)
  /\ 0 <= hours_remaining now <= 23
  /\ 0 <= minutes_remaining now <= 59.
Proof.
  intros Hv Hlt.
  pose proof (days_negative_after_wedding now Hv Hlt) as Hd.
  change (days (sub WEDDING_DATE now)) with (fst (calculate_days_until now)) in Hd.
  split; [exact Hd |].
  split; [| split; [reflexivity | apply hours_minutes_range]].
  rewrite auto_post_countdown_eq. cbn [snd].
  destruct (Z.ltb_spec 30 (fst (calculate_days_until now))); [lia |].
  destruct (Z.ltb_spec 7 (fst (calculate_days_until now))); [lia |].
  reflexivity.
Qed.

Lemma posts_daily_after_wedding_witness :
  let next_morning := mk_datetime 2026 12 13 10 30 0 0 in
  fst (calculate_days_until next_morning) < 0
  /\ outbox (snd (auto_post_countdown next_morning next_morning (initial_state ∅)))
     = [countdown_post next_morning]
  /\ text (countdown_post next_morning)
     = countdown_text (fst (calculate_days_until next_morning))
         (hours_remaining next_morning) (minutes_remaining next_morning)
  /\ 0 <= hours_remaining next_morning <= 23
  /\ 0 <= minutes_remaining next_morning <= 59.
Proof.
  apply (posts_daily_after_wedding (mk_datetime 2026 12 13 10 30 0 0)
           (mk_datetime 2026 12 13 10 30 0 0) (initial_state ∅)).
  - unfold valid. vm_compute. intuition discriminate.
  - reflexivity.
Defined.

(** ** Fetching a quote *)

(** C7, as the spec words it, fails: an answer with another status than
    200 gives the first fallback text, and nothing is logged. *)
Lemma non_200_is_not_logged :
  ~ (forall (python_str : pyval -> str) (fetched : result response) (st : State),
       request_failed fetched ->
       exists q r,
         get_quote python_str fetched st = (Ok q, set_log (log st ++ [r]) st)
         /\ (q = QUOTE_UNAVAILABLE \/ q = QUOTE_WENT_WRONG)).
Proof.
  intros H.
  destruct (H plain_str not_found (initial_state ∅)) as (q & r & E & _).
  - left. discriminate.
  - apply (f_equal (fun p => length (log (snd p)))) in E.
    vm_compute in E. discriminate E.
Qed.

(** C7, amended.  [get_quote] always returns a text and never raises.
    When the answer has another status than 200 it returns the first
    fallback text and logs nothing.  When the request raises, when
    decoding the body raises, or when the decoded body is not a list
    whose first element has [q] and [a], it returns the second fallback
    text and logs the exception.  When the status is 200 and the decoded
    body is a list whose first element is an object with [q] and [a], it
    returns the two joined by a dash, and changes nothing. *)
Theorem get_quote_outcomes
    (python_str : pyval -> str) (fetched : result response) (st : State) :
  let failed e := (Ok QUOTE_WENT_WRONG, set_log (log st ++ [quote_failure e]) st) in
  (exists q st', get_quote python_str fetched st = (Ok q, st'))
  /\ (forall r,
        fetched = Ok r -> status_code r <> 200 ->
        get_quote python_str fetched st = (Ok QUOTE_UNAVAILABLE, st))
  /\ (forall e,
        fetched = Raised e -> get_quote python_str fetched st = failed e)
  /\ (forall r e,
        fetched = Ok r -> status_code r = 200 -> json r = Raised e ->
        get_quote python_str fetched st = failed e)
  /\ (forall r v e,
        fetched = Ok r -> status_code r = 200 -> json r = Ok v ->
        getitem_0 v = Raised e
        \/ (exists x, getitem_0 v = Ok x
              /\ (getitem_key x (lit "q") = Raised e
                  \/ (exists q, getitem_key x (lit "q") = Ok q)
                     /\ getitem_key x (lit "a") = Raised e)) ->
        get_quote python_str fetched st = failed e)
  /\ (forall r bindings rest q a,
        fetched = Ok r -> status_code r = 200 ->
        json r = Ok (PList (PDict bindings :: rest)) ->
        dict_get (lit "q") bindings = Some q ->
        dict_get (lit "a") bindings = Some a ->
        get_quote python_str fetched st = (Ok (quote_text python_str q a), st)).
Proof.
  intros failed. subst failed.
  split.
  { destruct (get_quote_frame python_str fetched st) as (q & l & E). eauto. }
  unfold get_quote, try_except, bind, lift, ret, logger_error, modify, quote_failure.
  split; [| split; [| split; [| split]]].
  - intros r -> Hs. apply Z.eqb_neq in Hs. rewrite Hs. reflexivity.
  - intros e ->. reflexivity.
  - intros r e -> Hs Hj. apply Z.eqb_eq in Hs. rewrite Hs, Hj. reflexivity.
  - intros r v e -> Hs Hj Hx. apply Z.eqb_eq in Hs. rewrite Hs, Hj.
    destruct Hx as [E0 | (x & E0 & [Eq | [[q Eq] Ea]])]; rewrite E0.
    + reflexivity.
    + rewrite Eq. reflexivity.
    + rewrite Eq, Ea. reflexivity.
  - intros r bindings rest q a -> Hs Hj Hq Ha. apply Z.eqb_eq in Hs.
    rewrite Hs, Hj. cbn [getitem_0 getitem_key]. rewrite Hq, Ha. reflexivity.
Qed.

Lemma get_quote_outcomes_witness :
  get_quote plain_str one_quote (initial_state ∅)
  = (Ok (lit "Be kind. — Anon"), initial_state ∅)
  /\ get_quote plain_str not_found (initial_state ∅)
     = (Ok QUOTE_UNAVAILABLE, initial_state ∅)
  /\ get_quote plain_str service_down (initial_state ∅)
     = (Ok QUOTE_WENT_WRONG,
        set_log [quote_failure (RequestException (lit "connection refused"))]
          (initial_state ∅)).
Proof.
  pose proof (get_quote_outcomes plain_str one_quote (initial_state ∅))
    as (_ & _ & _ & _ & _ & Hok).
  pose proof (get_quote_outcomes plain_str not_found (initial_state ∅))
    as (_ & Hno & _).
  pose proof (get_quote_outcomes plain_str service_down (initial_state ∅))
    as (_ & _ & Hdown & _).
  split; [| split].
  - exact (Hok _ _ _ _ _ eq_refl eq_refl eq_refl eq_refl eq_refl).
  - refine (Hno _ eq_refl _). vm_compute. discriminate.
  - exact (Hdown _ eq_refl).
Defined.


(** * Further properties *)

(** ** The counter over whole runs *)

Section CounterRuns.

Variable python_str : pyval -> str.

Lemma step_text_counter (u : update) (fetched : result response) (st : State) :
  0 <= MESSAGE_COUNTER st < 20 ->
  MESSAGE_COUNTER (step python_str st (OnText u fetched))
  = (MESSAGE_COUNTER st + 1) mod 20.
Proof.
  intros Hr. unfold step. cbn [handle].
  destruct (Z_lt_le_dec (MESSAGE_COUNTER st + 1) 20) as [Hlt | Hge].
  - rewrite track_messages_below by exact Hlt. cbn [snd MESSAGE_COUNTER set_counter].
    rewrite Z.mod_small; lia.
  - destruct (track_messages_at python_str u fetched st Hge) as (q & l & _ & ->).
    cbn [snd MESSAGE_COUNTER].
    replace (MESSAGE_COUNTER st + 1) with 20 by lia. reflexivity.
Qed.

(** X1.  The counter is the number of text messages modulo 20, whatever
    other handlers run in between. *)
Theorem counter_counts_text_messages (evs : list event) :
  forall st : State,
    0 <= MESSAGE_COUNTER st < 20 ->
    MESSAGE_COUNTER (run python_str evs st)
    = (MESSAGE_COUNTER st + count_text evs) mod 20.
Proof.
  induction evs as [| ev evs IH]; intros st Hr.
  - cbn [run fold_left count_text]. rewrite Z.add_0_r, Z.mod_small; lia.
  - rewrite run_cons.
    assert (0 <= MESSAGE_COUNTER (step python_str st ev) < 20) as Hr'.
    { pose proof (step_counter_range python_str st ev) as H. lia. }
    rewrite (IH _ Hr').
    destruct ev as [| | | | | | | | | | u f | |];
      try (rewrite step_counter_other by (intros ? ?; discriminate);
           reflexivity).
    rewrite step_text_counter by exact Hr.
    cbn [count_text]. rewrite Z.add_mod_idemp_l by lia. f_equal. lia.
Qed.

Lemma is_quote_post_weaken (c : Z) (chats : list Z) (m : message) :
  is_quote_post chats m -> is_quote_post (c :: chats) m.
Proof. intros (Hin & Hp & Hq). split; [right; exact Hin | split; assumption]. Qed.

(** X2.  A run of text messages only sends quote posts, one for every
    twentieth message counted, each to the chat of one of the messages. *)
Theorem one_quote_post_per_twenty (msgs : list (update * result response)) :
  forall st : State,
    0 <= MESSAGE_COUNTER st < 20 ->
    exists posts,
      outbox (run python_str (text_messages msgs) st) = outbox st ++ posts
      /\ Z.of_nat (length posts)
         = (MESSAGE_COUNTER st + Z.of_nat (length msgs)) / 20
      /\ Forall (is_quote_post (map (fun m => effective_chat_id (fst m)) msgs)) posts.
Proof.
  induction msgs as [| [u f] msgs IH]; intros st Hr.
  - exists []. cbn [text_messages map run fold_left length].
    rewrite app_nil_r, Z.add_0_r, Z.div_small by lia.
    split; [reflexivity | split; [reflexivity | constructor]].
  - change (text_messages ((u, f) :: msgs)) with (OnText u f :: text_messages msgs).
    rewrite run_cons. cbn [map fst length].
    destruct (Z_lt_le_dec (MESSAGE_COUNTER st + 1) 20) as [Hlt | Hge].
    + rewrite step_text_below by exact Hlt.
      destruct (IH (set_counter (MESSAGE_COUNTER st + 1) st)) as (posts & Ho & Hn & Hp).
      { cbn [MESSAGE_COUNTER set_counter]. lia. }
      exists posts. cbn [MESSAGE_COUNTER set_counter outbox] in Ho, Hn.
      split; [exact Ho |]. split.
      * rewrite Hn, Nat2Z.inj_succ. f_equal. lia.
      * eapply Forall_impl; [exact Hp |]. intros m. apply is_quote_post_weaken.
    + unfold step at 1. cbn [handle].
      destruct (track_messages_at python_str u f st Hge) as (q & l & _ & ->).
      cbn [snd].
      match goal with
      | |- context [run python_str _ ?s] =>
          destruct (IH s) as (posts & Ho & Hn & Hp); [cbn [MESSAGE_COUNTER]; lia |]
      end.
      cbn [MESSAGE_COUNTER outbox] in Ho, Hn.
      exists (mk_message (effective_chat_id u) (quote_post q) None :: posts).
      split; [rewrite Ho, <- app_assoc; reflexivity |]. split.
      * cbn [length]. rewrite !Nat2Z.inj_succ.
        Z.div_mod_to_equations. lia.
      * constructor.
        -- split; [left; reflexivity | split; [reflexivity | exists q; reflexivity]].
        -- eapply Forall_impl; [exact Hp |]. intros m. apply is_quote_post_weaken.
Qed.

End CounterRuns.

Lemma counter_counts_text_messages_witness :
  let evs := text_messages (repeat (guest, service_down) 12)
             ++ song_dialog guest (lit "Yesterday") (lit "Beatles")
             ++ [OnQuote guest one_quote; OnDailyJob WEDDING_DATE WEDDING_DATE]
             ++ text_messages (repeat (guest, one_quote) 13) in
  MESSAGE_COUNTER (run plain_str evs (initial_state ∅)) = 5.
Proof.
  refine (counter_counts_text_messages plain_str
            (text_messages (repeat (guest, service_down) 12)
             ++ song_dialog guest (lit "Yesterday") (lit "Beatles")
             ++ [OnQuote guest one_quote; OnDailyJob WEDDING_DATE WEDDING_DATE]
             ++ text_messages (repeat (guest, one_quote) 13))
            (initial_state ∅) _).
  cbn [MESSAGE_COUNTER initial_state]. lia.
Defined.

Lemma one_quote_post_per_twenty_witness :
  exists posts,
    outbox (run plain_str (text_messages (repeat (guest, one_quote) 45))
              (initial_state ∅)) = posts
    /\ length posts = 2%nat.
Proof.
  destruct (one_quote_post_per_twenty plain_str (repeat (guest, one_quote) 45)
              (initial_state ∅)) as (posts & Ho & Hn & _).
  - cbn [MESSAGE_COUNTER initial_state]. lia.
  - exists posts. split; [exact Ho |].
    apply Nat2Z.inj. rewrite Hn. reflexivity.
Defined.

(** ** Commands that only answer *)

Section Answers.

Variable python_str : pyval -> str.

Lemma quote_outcome (u : update) (fetched : result response) (st : State) :
  exists q l,
    fst (get_quote python_str fetched st) = Ok q
    /\ quote python_str u fetched st
       = (Ok tt,
          mk_State (files st) (MESSAGE_COUNTER st) (user_data st)
            (outbox st ++ [mk_message (effective_chat_id u) q None]) l)
    /\ (l = log st \/ exists e, l = log st ++ [quote_failure e]).
Proof.
  unfold quote, bind.
  destruct (get_quote_cases python_str fetched st) as [[q H] | [e H]]; rewrite H.
  - exists q, (log st). split; [reflexivity |]. split; [| left; reflexivity].
    destruct st; reflexivity.
  - exists QUOTE_WENT_WRONG, (log st ++ [quote_failure e]).
    split; [reflexivity |]. split; [reflexivity | right; exists e; reflexivity].
Qed.

(** X3.  [/quote] always answers with exactly one message in the chat
    that asked: the text [get_quote] returned, be it a quote or a
    fallback.  It never raises, and touches neither the files nor the
    counter; the log grows by at most the record of a failed request. *)
Theorem quote_always_answers (u : update) (fetched : result response) (st : State) :
  exists q l,
    fst (get_quote python_str fetched st) = Ok q
    /\ quote python_str u fetched st
       = (Ok tt,
          mk_State (files st) (MESSAGE_COUNTER st) (user_data st)
            (outbox st ++ [mk_message (effective_chat_id u) q None]) l)
    /\ (l = log st \/ exists e, l = log st ++ [quote_failure e]).
Proof.
  unfold quote, bind.
  destruct (get_quote_cases python_str fetched st) as [[q H] | [e H]]; rewrite H.
  - exists q, (log st). split; [reflexivity |]. split; [| left; reflexivity].
    destruct st; reflexivity.
  - exists QUOTE_WENT_WRONG, (log st ++ [quote_failure e]).
    split; [reflexivity |]. split; [reflexivity | right; exists e; reflexivity].
Qed.

(** X4.  The commands start, countdown, faq, quote and displaylists,
    which read nothing of the update but its chat, are read-only: each
    sends exactly one message, to the chat that asked, and leaves the
    files, the counter and the stored titles as they were. *)
Theorem answering_commands_change_nothing (ev : event) (chat : Z) (st : State) :
  answers_to ev = Some chat ->
  files (step python_str st ev) = files st
  /\ MESSAGE_COUNTER (step python_str st ev) = MESSAGE_COUNTER st
  /\ user_data (step python_str st ev) = user_data st
  /\ exists m,
       outbox (step python_str st ev) = outbox st ++ [m] /\ chat_id m = chat.
Proof.
  intros Ha. unfold step.
  destruct ev as [u | u now | u | u f | u | u | u | u | u | u | u f | now now' | u e];
    cbn [answers_to] in Ha; try discriminate Ha;
    injection Ha as <-; cbn [handle]; unfold ignore, bind.
  - repeat split. eexists. split; reflexivity.
  - unfold countdown. destruct (calculate_days_until now).
    repeat split. eexists. split; reflexivity.
  - repeat split. eexists. split; reflexivity.
  - destruct (quote_outcome u f st) as (q & l & _ & -> & _).
    repeat split. eexists. split; reflexivity.
  - rewrite display_lists_eq. repeat split. eexists. split; reflexivity.
Qed.

End Answers.

Lemma answering_commands_change_nothing_witness :
  let st := run plain_str (song_dialog guest (lit "Yesterday") (lit "Beatles"))
              (initial_state ∅) in
  files (step plain_str st (OnDisplayLists guest)) = files st
  /\ MESSAGE_COUNTER (step plain_str st (OnDisplayLists guest)) = MESSAGE_COUNTER st
  /\ user_data (step plain_str st (OnDisplayLists guest)) = user_data st
  /\ exists m,
       outbox (step plain_str st (OnDisplayLists guest)) = outbox st ++ [m]
       /\ chat_id m = 7.
Proof.
  exact (answering_commands_change_nothing plain_str (OnDisplayLists guest) 7
           (run plain_str (song_dialog guest (lit "Yesterday") (lit "Beatles"))
              (initial_state ∅)) eq_refl).
Defined.

(** ** Errors and markup *)

(** X5.  The error handler writes its log record first and always: the
    record is there whether a chat can be told or not.  It tells the
    chat of the update when there is one, stays silent when the update
    has no chat, and fails with an attribute error, after logging, when
    there is no update at all; it never touches files or counter. *)
Theorem error_handler_logs_first (u : error_update) (e : exn) (st : State) :
  log (snd (error_handler u e st))
  = log st ++ [mk_log_record (lit "Exception while handling an update:") e]
  /\ outbox (snd (error_handler u e st))
     = outbox st
       ++ match u with
          | UpdateInChat chat => [mk_message chat (lit "An error occurred!") None]
          | _ => []
          end
  /\ files (snd (error_handler u e st)) = files st
  /\ MESSAGE_COUNTER (snd (error_handler u e st)) = MESSAGE_COUNTER st
  /\ (fst (error_handler u e st) = Raised AttributeError <-> u = NoUpdate).
Proof.
  destruct u as [| | chat]; unfold error_handler; unfold_monad; state_simpl;
    rewrite ?app_nil_r;
    (split; [reflexivity |]); (split; [reflexivity |]);
    (split; [reflexivity |]); (split; [reflexivity |]);
    split; intros H; try reflexivity; discriminate H.
Qed.

Section Outbox.

Variable python_str : pyval -> str.

Lemma plain_message (chat : Z) (t : str) : plain_or_faq (mk_message chat t None).
Proof. left. reflexivity. Qed.

(** One invocation adds at most two messages, each plain text or the FAQ. *)
Lemma step_outbox (st : State) (ev : event) :
  exists new,
    outbox (step python_str st ev) = outbox st ++ new
    /\ Forall plain_or_faq new.
Proof.
  unfold step.
  destruct ev as [u | u now | u | u f | u | u | u | u | u | u | u f | now now' | u e];
    cbn [handle]; unfold ignore, bind.
  - eexists [_]. split; [reflexivity | repeat constructor].
  - unfold countdown. destruct (calculate_days_until now).
    eexists [_]. split; [reflexivity | repeat constructor].
  - eexists [_]. split; [reflexivity |].
    constructor; [right; split; reflexivity | constructor].
  - destruct (quote_outcome python_str u f st) as (q & l & _ & -> & _).
    eexists [_]. split; [reflexivity | repeat constructor].
  - rewrite display_lists_eq.
    eexists [_]. split; [reflexivity | repeat constructor].
  - eexists [_]. split; [reflexivity | repeat constructor].
  - eexists [_]. split; [reflexivity | repeat constructor].
  - rewrite get_song_artist_eq.
    eexists [_; _]. split; [reflexivity | repeat constructor].
  - eexists [_]. split; [reflexivity | repeat constructor].
  - rewrite get_activity_eq.
    eexists [_; _]. split; [reflexivity | repeat constructor].
  - destruct (Z_lt_le_dec (MESSAGE_COUNTER st + 1) 20) as [Hlt | Hge].
    + rewrite track_messages_below by exact Hlt.
      exists []. split; [cbn [snd outbox set_counter]; rewrite app_nil_r; reflexivity
                        | constructor].
    + destruct (track_messages_at python_str u f st Hge) as (q & l & _ & ->).
      eexists [_]. split; [reflexivity | repeat constructor].
  - rewrite auto_post_countdown_eq. cbn [snd].
    match goal with |- context [if ?b then _ else _] => destruct b end.
    + eexists [_]. split; [reflexivity | repeat constructor].
    + exists []. split; [rewrite app_nil_r; reflexivity | constructor].
  - destruct u as [| | chat].
    + exists []. split; [cbn; rewrite app_nil_r; reflexivity | constructor].
    + exists []. split; [cbn; rewrite app_nil_r; reflexivity | constructor].
    + eexists [_]. split; [reflexivity | repeat constructor].
Qed.

(** X6.  Whatever the users send, it goes out as plain text: over any
    run, the only message sent with a parse mode is the fixed FAQ text.
    Nothing already sent is changed or withdrawn. *)
Theorem user_text_is_never_markup (evs : list event) :
  forall st : State,
    exists new,
      outbox (run python_str evs st) = outbox st ++ new
      /\ Forall plain_or_faq new.
Proof.
  induction evs as [| ev evs IH]; intros st.
  - exists []. split; [cbn; rewrite app_nil_r; reflexivity | constructor].
  - rewrite run_cons.
    destruct (step_outbox st ev) as (n1 & H1 & F1).
    destruct (IH (step python_str st ev)) as (n2 & H2 & F2).
    exists (n1 ++ n2). split.
    + rewrite H2, H1, app_assoc. reflexivity.
    + apply Forall_app. split; assumption.
Qed.

End Outbox.

Lemma error_handler_logs_first_witness :
  fst (error_handler NoUpdate TypeError (initial_state ∅)) = Raised AttributeError
  /\ log (snd (error_handler NoUpdate TypeError (initial_state ∅)))
     = [mk_log_record (lit "Exception while handling an update:") TypeError].
Proof.
  pose proof (error_handler_logs_first NoUpdate TypeError (initial_state ∅))
    as (Hlog & _ & _ & _ & Hraise).
  split; [apply Hraise; reflexivity | exact Hlog].
Defined.

(** ** Titles kept between the two steps of the song dialog *)

Section Titles.

Variable python_str : pyval -> str.

Lemma run_one (ev : event) (st : State) :
  run python_str [ev] st = step python_str st ev.
Proof. reflexivity. Qed.

(** The title the next artist message of [user] will be paired with. *)
Lemma stored_title_after_name (u : update) (st : State) :
  default ∅ (user_data (step python_str st (OnSongName u)) !! from_user_id u)
    !! lit "song_name"
  = Some (message_text u).
Proof.
  rewrite step_song_name, get_song_name_eq. cbn [snd user_data].
  rewrite lookup_insert_eq. cbn [from_option id]. apply lookup_insert_eq.
Qed.

Lemma stored_title_other_user (u : update) (user : Z) (st : State) :
  from_user_id u <> user ->
  user_data (step python_str st (OnSongName u)) !! user = user_data st !! user.
Proof.
  intros Hne. rewrite step_song_name, get_song_name_eq. cbn [snd user_data].
  apply lookup_insert_ne. exact Hne.
Qed.

Lemma stored_titles_other_users (others : list update) (user : Z) :
  forall st : State,
    Forall (fun o => from_user_id o <> user) others ->
    user_data (run python_str (map OnSongName others) st) !! user
    = user_data st !! user
    /\ files (run python_str (map OnSongName others) st) = files st.
Proof.
  induction others as [| o others IH]; intros st Ho; [split; reflexivity |].
  inversion Ho as [| ? ? Hne Ho']; subst.
  cbn [map]. rewrite run_cons.
  destruct (IH (step python_str st (OnSongName o)) Ho') as [Hu Hf].
  rewrite Hu, Hf, stored_title_other_user by exact Hne.
  split; reflexivity.
Qed.

Lemma song_artist_content (u : update) (st : State) :
  content_of SONG_FILE (step python_str st (OnSongArtist u))
  = content_of SONG_FILE st
    ++ song_line
         (show_optional
            (default ∅ (user_data st !! from_user_id u) !! lit "song_name"))
         (message_text u)
    ++ nl.
Proof.
  rewrite step_song_artist, get_song_artist_eq. unfold content_of at 1.
  cbn [snd files]. rewrite lookup_insert_eq. reflexivity.
Qed.

(** X7.  Titles are kept per user: while one user is between title and
    artist, titles sent by other users do not disturb the entry; the
    line written pairs the artist with that user's own title. *)
Theorem titles_are_kept_per_user
    (chat user : Z) (title artist : str) (others : list update) (st : State) :
  Forall (fun o => from_user_id o <> user) others ->
  content_of SONG_FILE
    (run python_str
       ([OnSongName (text_from chat user title)]
        ++ map OnSongName others
        ++ [OnSongArtist (text_from chat user artist)]) st)
  = content_of SONG_FILE st ++ song_line title artist ++ nl.
Proof.
  intros Ho. rewrite !run_app, !run_one.
  set (st1 := step python_str st (OnSongName (text_from chat user title))).
  destruct (stored_titles_other_users others user st1 Ho) as [Hu Hf].
  rewrite song_artist_content. unfold content_of. rewrite Hf.
  cbn [from_user_id message_text text_from]. rewrite Hu.
  pose proof (stored_title_after_name (text_from chat user title) st) as Ht.
  cbn [from_user_id message_text text_from] in Ht. fold st1 in Ht. rewrite Ht.
  subst st1. rewrite step_song_name, get_song_name_eq. reflexivity.
Qed.

(** X8.  One user has one stored title, whatever the chat: a second
    title, sent from any chat, replaces the first, and the artist is
    paired with the latest one. *)
Theorem latest_title_wins
    (chat1 chat2 chat3 user : Z) (title1 title2 artist : str) (st : State) :
  content_of SONG_FILE
    (run python_str
       [OnSongName (text_from chat1 user title1);
        OnSongName (text_from chat2 user title2);
        OnSongArtist (text_from chat3 user artist)] st)
  = content_of SONG_FILE st ++ song_line title2 artist ++ nl.
Proof.
  rewrite !run_cons. unfold run, fold_left.
  rewrite song_artist_content.
  pose proof (stored_title_after_name (text_from chat2 user title2)
                (step python_str st (OnSongName (text_from chat1 user title1))))
    as Ht.
  cbn [from_user_id message_text text_from] in Ht |- *. rewrite Ht.
  rewrite !step_song_name, !get_song_name_eq. reflexivity.
Qed.

(** X9.  An artist message from a user with no stored title is not
    refused: the entry is written with the text [None] for the title. *)
Theorem artist_without_title_writes_None (u : update) (st : State) :
  default ∅ (user_data st !! from_user_id u) !! lit "song_name" = None ->
  fst (get_song_artist u st) = Ok END
  /\ content_of SONG_FILE (snd (get_song_artist u st))
     = content_of SONG_FILE st ++ lit "None - " ++ message_text u ++ nl.
Proof.
  intros Hn. rewrite get_song_artist_eq. cbn [fst snd]. split; [reflexivity |].
  unfold content_of at 1. cbn [files]. rewrite lookup_insert_eq, Hn.
  cbn [from_option id show_optional]. unfold song_line.
  change (lit "None - ") with (lit "None" ++ lit " - ").
  rewrite <- !app_assoc. reflexivity.
Qed.

End Titles.

Lemma titles_are_kept_per_user_witness :
  content_of SONG_FILE
    (run plain_str
       ([OnSongName (text_from 7 1 (lit "Yesterday"))]
        ++ map OnSongName [text_from 7 2 (lit "Imagine"); text_from 8 3 (lit "Help")]
        ++ [OnSongArtist (text_from 7 1 (lit "Beatles"))]) (initial_state ∅))
  = lit "Yesterday - Beatles" ++ nl.
Proof.
  refine (titles_are_kept_per_user plain_str 7 1 (lit "Yesterday") (lit "Beatles")
            [text_from 7 2 (lit "Imagine"); text_from 8 3 (lit "Help")]
            (initial_state ∅) _).
  repeat constructor; cbn; lia.
Defined.

Lemma artist_without_title_writes_None_witness :
  fst (get_song_artist guest (initial_state ∅)) = Ok END
  /\ content_of SONG_FILE (snd (get_song_artist guest (initial_state ∅)))
     = lit "None - hello" ++ nl.
Proof.
  exact (artist_without_title_writes_None guest (initial_state ∅) eq_refl).
Defined.

(** ** White space at the ends of a text *)

Lemma lstrip_all_space (s : str) : all_space s = true -> lstrip s = [].
Proof.
  induction s as [| c s IH]; [reflexivity |].
  intros H. apply andb_true_iff in H as [Hc Hs].
  cbn [lstrip]. rewrite Hc. apply IH, Hs.
Qed.

Lemma strip_all_space (s : str) : all_space s = true -> strip s = [].
Proof. intros H. unfold strip, rstrip. rewrite (lstrip_all_space s H). reflexivity. Qed.

Lemma all_space_cons (c : Z) (s : str) :
  all_space (c :: s) = isspace c && all_space s.
Proof. reflexivity. Qed.

Lemma universal_newlines_all_space_le (n : nat) :
  forall s : str,
    (length s <= n)%nat -> all_space s = true ->
    all_space (universal_newlines s) = true.
Proof.
  induction n as [| n IH]; intros s Hl Hs.
  - destruct s; [reflexivity | cbn in Hl; lia].
  - destruct s as [| c r]; [reflexivity |].
    rewrite all_space_cons in Hs. apply andb_true_iff in Hs as [Hc Hr].
    cbn [length] in Hl. cbn [universal_newlines].
    destruct (c =? CR).
    + destruct r as [| d r1]; [reflexivity |].
      rewrite all_space_cons in Hr. apply andb_true_iff in Hr as [Hd Hr1].
      cbn [length] in Hl.
      destruct (d =? LF); rewrite all_space_cons.
      * rewrite (IH r1) by (assumption || lia). reflexivity.
      * rewrite (IH (d :: r1)); [reflexivity | cbn [length]; lia |].
        rewrite all_space_cons, Hd. exact Hr1.
    + rewrite all_space_cons, Hc. apply IH; [lia | exact Hr].
Qed.

Lemma universal_newlines_all_space (s : str) :
  all_space s = true -> all_space (universal_newlines s) = true.
Proof. apply (universal_newlines_all_space_le (length s)). lia. Qed.

Lemma universal_newlines_no_cr (s : str) :
  has_cr s = false -> universal_newlines s = s.
Proof.
  induction s as [| c s IH]; [reflexivity |].
  cbn [has_cr existsb universal_newlines]. intros H.
  apply orb_false_iff in H as [Hc Hs]. rewrite Hc, IH by exact Hs. reflexivity.
Qed.

Lemma lstrip_starts_clean (s : str) : starts_clean s = true -> lstrip s = s.
Proof.
  destruct s as [| c s]; [discriminate |].
  cbn [starts_clean lstrip]. intros H. apply negb_true_iff in H. rewrite H. reflexivity.
Qed.

(** A text with clean ends, followed by one line feed, strips to itself. *)
Lemma strip_line (s : str) :
  starts_clean s = true -> ends_clean s = true -> strip (s ++ nl) = s.
Proof.
  intros Hs He. unfold strip, rstrip.
  rewrite (lstrip_starts_clean (s ++ nl)).
  - unfold nl. rewrite rev_app_distr. cbn [rev app lstrip].
    change (isspace LF) with true. cbn iota.
    rewrite lstrip_starts_clean by exact He. apply rev_involutive.
  - destruct s; [discriminate | exact Hs].
Qed.

Lemma has_cr_app (s t : str) : has_cr (s ++ t) = has_cr s || has_cr t.
Proof. apply existsb_app. Qed.

Lemma song_file_is_not_activity_file : SONG_FILE <> ACTIVITY_FILE.
Proof.
  intros H. apply (f_equal (fun s => nth 0 s 0)) in H.
  vm_compute in H. discriminate H.
Qed.

(** ** Reading the lists back *)

(** X11.  A list file that holds white space only is shown like an
    empty one: [display_lists] answers with the sentinel for it. *)
Theorem blank_files_show_sentinels (u : update) (st : State) (songs activities : str) :
  files st !! SONG_FILE = Some songs ->
  files st !! ACTIVITY_FILE = Some activities ->
  all_space songs = true ->
  all_space activities = true ->
  display_lists u st
  = (Ok tt,
     set_outbox
       (outbox st
        ++ [mk_message (effective_chat_id u) (combined NO_SONGS NO_ACTIVITIES) None])
       st).
Proof.
  intros Hs Ha Ws Wa. rewrite display_lists_eq, Hs, Ha.
  unfold shown_stripped.
  rewrite !strip_all_space by (apply universal_newlines_all_space; assumption).
  reflexivity.
Qed.

Section ReadBack.

Variable python_str : pyval -> str.

(** X12.  Round trip: a song submitted into a missing or empty list is
    shown back by [display_lists] as the entry itself, the final line
    feed gone, when the title starts and the artist ends with something
    other than white space and neither holds a carriage return; the
    activity list is shown as it would have been before. *)
Theorem submitted_song_is_shown
    (u v : update) (title artist : str) (st : State) :
  content_of SONG_FILE st = [] ->
  starts_clean title = true -> ends_clean artist = true ->
  has_cr title = false -> has_cr artist = false ->
  display_lists v (run python_str (song_dialog u title artist) st)
  = (Ok tt,
     set_outbox
       (outbox (run python_str (song_dialog u title artist) st)
        ++ [mk_message (effective_chat_id v)
              (combined (song_line title artist)
                 (shown_stripped NO_ACTIVITIES (files st !! ACTIVITY_FILE)))
              None])
       (run python_str (song_dialog u title artist) st)).
Proof.
  intros He Ht Ha Ct Ca. rewrite display_lists_eq.
  rewrite song_dialog_files, He.
  rewrite lookup_insert_eq,
    (lookup_insert_ne _ _ _ _ song_file_is_not_activity_file).
  cbn [app shown_stripped].
  rewrite universal_newlines_no_cr.
  - rewrite strip_line.
    + destruct title as [| c title]; [discriminate Ht | reflexivity].
    + destruct title as [| c title]; [discriminate Ht | exact Ht].
    + unfold ends_clean, song_line in *. rewrite !rev_app_distr.
      destruct (rev artist) as [| c r]; [discriminate Ha | exact Ha].
  - unfold song_line. rewrite !has_cr_app, Ct, Ca. reflexivity.
Qed.

(** X13.  The two lists are independent: song dialogs change no file
    but the song list, activity dialogs none but the activity list. *)
Theorem lists_are_independent
    (songs : list (update * (str * str))) (activities : list (update * str))
    (path : str) (st : State) :
  (path <> SONG_FILE ->
   files (run python_str (song_submissions songs) st) !! path = files st !! path)
  /\ (path <> ACTIVITY_FILE ->
      files (run python_str (activity_submissions activities) st) !! path
      = files st !! path).
Proof.
  split; intros Hne.
  - revert st. induction songs as [| [u [t a]] songs IH]; intros st; [reflexivity |].
    change (song_submissions ((u, (t, a)) :: songs))
      with (song_dialog u t a ++ song_submissions songs).
    rewrite run_app, IH, song_dialog_files.
    apply lookup_insert_ne. congruence.
  - revert st. induction activities as [| [u a] acts IH]; intros st; [reflexivity |].
    change (activity_submissions ((u, a) :: acts))
      with (activity_dialog u a ++ activity_submissions acts).
    rewrite run_app, IH, activity_dialog_files.
    apply lookup_insert_ne. congruence.
Qed.

End ReadBack.

Lemma blank_files_show_sentinels_witness :
  let st := initial_state {[SONG_FILE := nl; ACTIVITY_FILE := lit "  " ++ [CR; LF]]} in
  display_lists guest st
  = (Ok tt,
     set_outbox [mk_message 7 (combined NO_SONGS NO_ACTIVITIES) None] st).
Proof.
  refine (blank_files_show_sentinels guest
            (initial_state {[SONG_FILE := nl; ACTIVITY_FILE := lit "  " ++ [CR; LF]]})
            nl (lit "  " ++ [CR; LF]) _ _ _ _);
    vm_compute; reflexivity.
Defined.

Lemma submitted_song_is_shown_witness :
  display_lists guest
    (run plain_str (song_dialog guest (lit "Hey Jude") (lit "Beatles"))
       (initial_state ∅))
  = (Ok tt,
     set_outbox
       (outbox (run plain_str (song_dialog guest (lit "Hey Jude") (lit "Beatles"))
                  (initial_state ∅))
        ++ [mk_message (effective_chat_id guest)
              (combined (song_line (lit "Hey Jude") (lit "Beatles"))
                 (shown_stripped NO_ACTIVITIES
                    (files (initial_state ∅) !! ACTIVITY_FILE)))
              None])
       (run plain_str (song_dialog guest (lit "Hey Jude") (lit "Beatles"))
          (initial_state ∅))).
Proof.
  apply (submitted_song_is_shown plain_str guest guest
           (lit "Hey Jude") (lit "Beatles") (initial_state ∅));
    vm_compute; reflexivity.
Defined.

Lemma lists_are_independent_witness :
  files (run plain_str
           (song_submissions [(guest, (lit "Hey Jude", lit "Beatles"))])
           (initial_state {[ACTIVITY_FILE := lit "Limbo" ++ nl]}))
    !! ACTIVITY_FILE
  = Some (lit "Limbo" ++ nl).
Proof.
  rewrite (proj1 (lists_are_independent plain_str
                    [(guest, (lit "Hey Jude", lit "Beatles"))] []
                    ACTIVITY_FILE
                    (initial_state {[ACTIVITY_FILE := lit "Limbo" ++ nl]}))).
  - vm_compute. reflexivity.
  - intros H. apply (f_equal (fun s => nth 0 s 0)) in H.
    vm_compute in H. discriminate H.
Defined.

(** ** The countdown over time *)

(** The whole days are the difference on the time line, rounded down. *)
Lemma days_remaining_floor (now : datetime) :
  fst (calculate_days_until now)
  = (to_microseconds WEDDING_DATE - to_microseconds now) / 86400000000.
Proof.
  cbn [calculate_days_until fst].
  destruct (sub_spec WEDDING_DATE now) as (H & Hs & Hu).
  set (d := days (sub WEDDING_DATE now)) in *.
  set (s := seconds (sub WEDDING_DATE now)) in *.
  set (us := microseconds (sub WEDDING_DATE now)) in *.
  set (r := to_microseconds WEDDING_DATE - to_microseconds now) in *.
  clearbody d s us r. Z.div_mod_to_equations. lia.
Qed.

(** Days, hours and minutes are fixed by the whole minutes remaining. *)
Lemma countdown_parts (now : datetime) :
  let r := (to_microseconds WEDDING_DATE - to_microseconds now) / 60000000 in
  days (sub WEDDING_DATE now) = r / 1440
  /\ seconds (sub WEDDING_DATE now) / 3600 = (r mod 1440) / 60
  /\ (seconds (sub WEDDING_DATE now) mod 3600) / 60 = r mod 60.
Proof.
  destruct (sub_spec WEDDING_DATE now) as (H & Hs & Hu).
  set (d := days (sub WEDDING_DATE now)) in *.
  set (s := seconds (sub WEDDING_DATE now)) in *.
  set (us := microseconds (sub WEDDING_DATE now)) in *.
  set (t := to_microseconds WEDDING_DATE - to_microseconds now) in *.
  clearbody d s us t. cbv zeta.
  Z.div_mod_to_equations. lia.
Qed.

(** X14.  The countdown text changes on whole minutes only: two
    readings of the clock with the same number of whole minutes left
    give the same days and the same text, for [/countdown] and for the
    daily post alike. *)
Theorem countdown_changes_on_whole_minutes (now now' : datetime) :
  (to_microseconds WEDDING_DATE - to_microseconds now) / 60000000
  = (to_microseconds WEDDING_DATE - to_microseconds now') / 60000000 ->
  calculate_days_until now = calculate_days_until now'.
Proof.
  intros E. unfold calculate_days_until.
  destruct (countdown_parts now) as (Hd & Hh & Hm).
  destruct (countdown_parts now') as (Hd' & Hh' & Hm').
  cbv zeta in *. rewrite Hd, Hh, Hm, Hd', Hh', Hm', E. reflexivity.
Qed.

(** X15.  The days remaining never go up as time passes. *)
Theorem days_remaining_never_increase (now now' : datetime) :
  to_microseconds now <= to_microseconds now' ->
  fst (calculate_days_until now') <= fst (calculate_days_until now).
Proof.
  intros Hle. rewrite !days_remaining_floor.
  apply Z.div_le_mono; lia.
Qed.

(** X16.  On a constructed datetime, the days remaining are the
    calendar days between the date and the wedding date, less one unless
    the clock shows midnight sharp.  So on the wedding day itself, after
    midnight, the countdown already says -1 days. *)
Theorem days_remaining_by_calendar (now : datetime) :
  valid now ->
  fst (calculate_days_until now)
  = toordinal WEDDING_DATE - toordinal now - (if at_midnight now then 0 else 1).
Proof.
  intros (_ & _ & _ & Hh & Hmi & Hs & Hus).
  rewrite days_remaining_floor. unfold to_microseconds, at_midnight.
  change (hour WEDDING_DATE) with 0. change (minute WEDDING_DATE) with 0.
  change (second WEDDING_DATE) with 0. change (microsecond WEDDING_DATE) with 0.
  set (w := toordinal WEDDING_DATE). set (o := toordinal now). clearbody w o.
  destruct (Z.eqb_spec (hour now) 0); destruct (Z.eqb_spec (minute now) 0);
    destruct (Z.eqb_spec (second now) 0); destruct (Z.eqb_spec (microsecond now) 0);
    cbn [andb]; Z.div_mod_to_equations; lia.
Qed.

(** ** The sign of the countdown *)

Ltac eval_tables :=
  repeat match goal with
         | |- context [nth ?n ?l ?d] =>
             let v := eval vm_compute in (nth n l d) in change (nth n l d) with v
         | H : context [nth ?n ?l ?d] |- _ =>
             let v := eval vm_compute in (nth n l d) in change (nth n l d) with v in H
         end.

Lemma month_cases (m : Z) :
  1 <= m <= 12 ->
  m = 1 \/ m = 2 \/ m = 3 \/ m = 4 \/ m = 5 \/ m = 6 \/ m = 7
  \/ m = 8 \/ m = 9 \/ m = 10 \/ m = 11 \/ m = 12.
Proof. lia. Qed.

(** The day of a date within its year is at most the year's length. *)
Lemma day_of_year_bound (y m d : Z) :
  1 <= m <= 12 -> d <= days_in_month y m ->
  days_before_month y m + d <= 365 + (if is_leap y then 1 else 0).
Proof.
  intros Hm Hd. unfold days_before_month, days_in_month in *.
  destruct (is_leap y);
    destruct (month_cases m Hm) as
      [-> | [-> | [-> | [-> | [-> | [-> | [-> | [-> | [-> | [-> | [-> | ->]]]]]]]]]]];
    eval_tables; cbn in Hd |- *; lia.
Qed.

Lemma days_before_year_succ (y : Z) :
  days_before_year (y + 1)
  = days_before_year y + 365 + (if is_leap y then 1 else 0).
Proof.
  unfold days_before_year, is_leap.
  replace (y + 1 - 1) with y by lia.
  destruct (Z.eqb_spec (y mod 4) 0); destruct (Z.eqb_spec (y mod 100) 0);
    destruct (Z.eqb_spec (y mod 400) 0); cbn [andb orb negb];
    Z.div_mod_to_equations; lia.
Qed.

Lemma days_before_year_mono (y y' : Z) :
  y <= y' -> days_before_year y <= days_before_year y'.
Proof. intros H. unfold days_before_year. Z.div_mod_to_equations. lia. Qed.

(** A date of an earlier year comes before the first day of 2026. *)
Lemma ordinal_before_2026 (now : datetime) :
  valid now -> year now < 2026 -> toordinal now <= 739616.
Proof.
  intros (Hy & Hm & Hd & _) Hlt. unfold toordinal.
  pose proof (day_of_year_bound (year now) (month now) (day now) Hm (proj2 Hd)) as Hb.
  pose proof (days_before_year_succ (year now)) as Hs.
  pose proof (days_before_year_mono (year now + 1) 2026 ltac:(lia)) as Hmono.
  change (days_before_year 2026) with 739616 in Hmono. lia.
Qed.

(** A date of 2026 before December comes before the first of December. *)
Lemma ordinal_before_december (m d : Z) :
  1 <= m <= 11 -> d <= days_in_month 2026 m ->
  days_before_month 2026 m + d <= 334.
Proof.
  intros Hm Hd.
  assert (1 <= m <= 12) as Hm' by lia.
  destruct (month_cases m Hm') as
    [-> | [-> | [-> | [-> | [-> | [-> | [-> | [-> | [-> | [-> | [-> | ->]]]]]]]]]]];
    try lia; unfold days_before_month, days_in_month in *;
    change (is_leap 2026) with false in *; eval_tables; cbn in Hd |- *; lia.
Qed.

(** On constructed datetimes, not later in the field order is not later
    on the time line. *)
Lemma not_after_wedding_not_later (now : datetime) :
  valid now -> lt WEDDING_DATE now = false ->
  to_microseconds now <= to_microseconds WEDDING_DATE.
Proof.
  intros Hv Hlt.
  pose proof (ordinal_before_2026 now Hv) as Hyear.
  destruct Hv as (Hy & Hm & Hd & Hh & Hmi & Hs & Hus).
  pose proof (fun H => ordinal_before_december (month now) (day now) H) as Hdec.
  unfold lt, fields, WEDDING_DATE in Hlt.
  cbn [lex_lt year month day hour minute second microsecond] in Hlt.
  change (to_microseconds WEDDING_DATE) with 63932716800000000.
  unfold to_microseconds, toordinal in *.
  destruct (Z.ltb_spec 2026 (year now)); [discriminate Hlt |].
  destruct (Z.eqb_spec 2026 (year now)) as [Ey | Ey];
    [| specialize (Hyear ltac:(lia)); lia].
  clear Hyear. rewrite <- Ey in *. change (days_before_year 2026) with 739616.
  destruct (Z.ltb_spec 12 (month now)); [discriminate Hlt |].
  destruct (Z.eqb_spec 12 (month now)) as [Em | Em];
    [| specialize (Hdec ltac:(lia) (proj2 Hd)); lia].
  rewrite <- Em in *. change (days_before_month 2026 12) with 334.
  destruct (Z.ltb_spec 12 (day now)); [discriminate Hlt |].
  destruct (Z.eqb_spec 12 (day now)) as [Ed | Ed]; [| lia].
  destruct (Z.ltb_spec 0 (hour now)); [discriminate Hlt |].
  destruct (Z.eqb_spec 0 (hour now)); [| lia].
  destruct (Z.ltb_spec 0 (minute now)); [discriminate Hlt |].
  destruct (Z.eqb_spec 0 (minute now)); [| lia].
  destruct (Z.ltb_spec 0 (second now)); [discriminate Hlt |].
  destruct (Z.eqb_spec 0 (second now)); [| lia].
  destruct (Z.ltb_spec 0 (microsecond now)); [discriminate Hlt |].
  lia.
Qed.

(** X17.  On constructed datetimes the sign of the days remaining tells
    the side of the wedding date: negative exactly when the moment is
    later than 2026-12-12 00:00, so never negative up to that moment. *)
Theorem days_negative_exactly_after_wedding (now : datetime) :
  valid now ->
  (fst (calculate_days_until now) < 0 <-> lt WEDDING_DATE now = true).
Proof.
  intros Hv. split.
  - intros Hneg. destruct (lt WEDDING_DATE now) eqn:E; [reflexivity |].
    pose proof (not_after_wedding_not_later now Hv E) as Hle.
    rewrite days_remaining_floor in Hneg.
    assert (0 <= (to_microseconds WEDDING_DATE - to_microseconds now) / 86400000000)
      by (apply Z.div_pos; lia).
    lia.
  - intros Hlt. exact (days_negative_after_wedding now Hv Hlt).
Qed.

Lemma days_negative_exactly_after_wedding_witness :
  0 <= fst (calculate_days_until (mk_datetime 2026 12 11 23 59 59 999999))
  /\ fst (calculate_days_until (mk_datetime 2026 12 12 0 0 0 1)) < 0.
Proof.
  split.
  - destruct (fst (calculate_days_until (mk_datetime 2026 12 11 23 59 59 999999)) <? 0)
      eqn:E; [| apply Z.ltb_ge; exact E].
    apply Z.ltb_lt in E.
    apply (days_negative_exactly_after_wedding
             (mk_datetime 2026 12 11 23 59 59 999999)) in E.
    + vm_compute in E. discriminate E.
    + unfold valid. vm_compute. intuition discriminate.
  - apply (days_negative_exactly_after_wedding (mk_datetime 2026 12 12 0 0 0 1)).
    + unfold valid. vm_compute. intuition discriminate.
    + reflexivity.
Defined.

Lemma countdown_changes_on_whole_minutes_witness :
  calculate_days_until (mk_datetime 2026 12 2 8 30 1 0)
  = calculate_days_until (mk_datetime 2026 12 2 8 31 0 0).
Proof.
  apply countdown_changes_on_whole_minutes. vm_compute. reflexivity.
Defined.

Lemma days_remaining_never_increase_witness :
  fst (calculate_days_until (mk_datetime 2026 12 13 0 0 0 0))
  <= fst (calculate_days_until (mk_datetime 2026 11 1 9 0 0 0)).
Proof.
  apply days_remaining_never_increase. vm_compute. discriminate.
Defined.

Lemma days_remaining_by_calendar_witness :
  fst (calculate_days_until (mk_datetime 2026 12 12 14 0 0 0)) = -1.
Proof.
  refine (days_remaining_by_calendar (mk_datetime 2026 12 12 14 0 0 0) _).
  unfold valid. vm_compute. intuition discriminate.
Defined.

(** ** The reply to a submission *)

(** X10.  After a submission the handler answers twice in the chat that
    sent it: the acknowledgement, then the whole list as the file now
    reads, every earlier entry included, the new one last. *)
Theorem submission_is_answered_with_whole_list (u : update) (st : State) :
  (outbox (snd (get_song_artist u st))
   = outbox st
     ++ [mk_message (effective_chat_id u)
           (lit "Song added! Here is the updated playlist:") None;
         mk_message (effective_chat_id u)
           (universal_newlines (content_of SONG_FILE (snd (get_song_artist u st))))
           None]
   /\ content_of SONG_FILE (snd (get_song_artist u st))
      = content_of SONG_FILE st
        ++ song_line
             (show_optional
                (default ∅ (user_data st !! from_user_id u) !! lit "song_name"))
             (message_text u)
        ++ nl)
  /\ (outbox (snd (get_activity u st))
      = outbox st
        ++ [mk_message (effective_chat_id u)
              (lit "Activity added! Here is the updated activity list:") None;
            mk_message (effective_chat_id u)
              (universal_newlines
                 (content_of ACTIVITY_FILE (snd (get_activity u st))))
              None]
      /\ content_of ACTIVITY_FILE (snd (get_activity u st))
         = content_of ACTIVITY_FILE st ++ message_text u ++ nl).
Proof.
  split.
  - pose proof (get_song_artist_eq u st) as E. cbv zeta in E.
    match type of E with
    | _ = (_, mk_State (<[_ := ?w]> _) _ _ _ _) =>
        assert (content_of SONG_FILE (snd (get_song_artist u st)) = w) as Hc
    end.
    { rewrite E. unfold content_of at 1. cbn [snd files].
      rewrite lookup_insert_eq. reflexivity. }
    split; [rewrite Hc, E; reflexivity | exact Hc].
  - pose proof (get_activity_eq u st) as E. cbv zeta in E.
    match type of E with
    | _ = (_, mk_State (<[_ := ?w]> _) _ _ _ _) =>
        assert (content_of ACTIVITY_FILE (snd (get_activity u st)) = w) as Hc
    end.
    { rewrite E. unfold content_of at 1. cbn [snd files].
      rewrite lookup_insert_eq. reflexivity. }
    split; [rewrite Hc, E; reflexivity | exact Hc].
Qed.
